(** * Appbundler: the bundle-assembly pipeline, embedded and verified

    A shallow embedding of the Go sources of the application bundler
    (package [application], package [fileManagement] and [main]) over an
    explicit model of the POSIX file system the program drives through the
    Go [os] package.  Program text becomes state-passing functions over
    [State]; a Go [error] is an [option error] ([None] is [nil]). *)

From Stdlib Require Import String Ascii NArith Lia.
From stdpp Require Import base gmap strings list.

(** ** Go strings

    A Go string is a sequence of bytes; [string] (a list of [ascii]) is used
    as such, [String.length] being Go's [len]. *)

Module GoStrings.

(** [strings.HasSuffix(s, suffix)]:
    [len(s) >= len(suffix) && s[len(s)-len(suffix):] == suffix]. *)
Definition HasSuffix (s suffix : string) : bool :=
  (String.length suffix <=? String.length s)%nat &&
  String.eqb
    (substring (String.length s - String.length suffix) (String.length suffix) s)
    suffix.

Definition lower_ascii (c : ascii) : ascii :=
  let n := N_of_ascii c in
  if ((65 <=? n) && (n <=? 90))%N then ascii_of_N (n + 32) else c.

(** [strings.ToLower] restricted to the ASCII letters.  The program only
    compares the result with the literal [true]; no rune outside ASCII
    lowers to one of the letters t, r, u, e, so the comparison agrees with
    Go's on every input. *)
Fixpoint ToLower (s : string) : string :=
  match s with
  | EmptyString => EmptyString
  | String c r => String (lower_ascii c) (ToLower r)
  end.

(** [strings.Split(s, "/")]: one element more than there are separators. *)
Fixpoint split_slash (s : string) : list string :=
  match s with
  | EmptyString => [EmptyString]
  | String c r =>
      if Ascii.eqb c "/" then EmptyString :: split_slash r
      else match split_slash r with
           | h :: t => String c h :: t
           | [] => [String c EmptyString]
           end
  end.

(** [strings.Join(elems, "/")]. *)
Fixpoint join_slash (l : list string) : string :=
  match l with
  | [] => EmptyString
  | [c] => c
  | c :: r => c +:+ "/" +:+ join_slash r
  end.

End GoStrings.

(** ** Package [path/filepath] (Unix) *)

Module filepath.
Import GoStrings.

Definition rooted (path : string) : bool :=
  match path with
  | String c _ => Ascii.eqb c "/"
  | EmptyString => false
  end.

(** One element of [Clean]'s scan; [out] is the output so far, last element
    first.  An empty element or [.] is dropped; [..] removes the element
    before it when there is one to remove, is dropped at the root, and is
    kept otherwise. *)
Definition clean_step (is_rooted : bool) (out : list string) (c : string)
  : list string :=
  if String.eqb c "" || String.eqb c "." then out
  else if String.eqb c ".." then
    match out with
    | top :: rest => if String.eqb top ".." then c :: out else rest
    | [] => if is_rooted then [] else [c]
    end
  else c :: out.

Definition clean_elems (path : string) : list string :=
  rev (fold_left (clean_step (rooted path)) (split_slash path) []).

(** [filepath.Clean]. *)
Definition Clean (path : string) : string :=
  if String.eqb path "" then "."
  else
    let body := join_slash (clean_elems path) in
    if rooted path then "/" +:+ body
    else if String.eqb body "" then "." else body.

(** [filepath.Join] of two elements: empty leading elements are ignored,
    the rest is joined with the separator and cleaned. *)
Definition Join (a b : string) : string :=
  if negb (String.eqb a "") then Clean (a +:+ "/" +:+ b)
  else if negb (String.eqb b "") then Clean b
  else "".

End filepath.

(** ** Package [os]: a model of the file system and of the calls the
    program makes on it

    The file system is a finite map from absolute paths, as lists of
    names from the root, to nodes.  The root directory is implicit; the
    working directory of the process is a path of the map.  Permission
    checks are not modelled (the calls fail for structural reasons only:
    a missing name, a file where a directory is needed, ...), except that
    only the superuser changes the owner of a file.  Modes are numbers in
    decimal: 493 is 0755, 438 is 0666, 420 is 0644, 511 is 0777, and the
    umask 18 is 022. *)

Module os.
Import GoStrings filepath.

Inductive Errno :=
  ENOENT | ENOTDIR | EISDIR | EEXIST | EINVAL | ELOOP | EPERM | ENAMETOOLONG.

(** A Go [error] value: an [*os.PathError] or the result of [errors.New]
    and [fmt.Errorf]. *)
Inductive error :=
  | PathError (op path : string) (errno : Errno)
  | errorString (msg : string).

(** [os.IsNotExist]. *)
Definition IsNotExist (err : option error) : bool :=
  match err with
  | Some (PathError _ _ ENOENT) => true
  | _ => false
  end.

Inductive kind :=
  | KDir
  | KFile (content : string)
  | KSymlink (target : string).

(** A node with its permission bits and its owner. *)
Record node := mkNode { nkind : kind; nmode : N; nuid : N; ngid : N }.

Abbreviation key := (list string) (only parsing).

Record Proc := mkProc {
  fs : gmap (list string) node;
  cwd : list string;
  umask : N;
  euid : N;
  egid : N
}.

Definition set_fs (p : Proc) (m : gmap (list string) node) : Proc :=
  mkProc m (cwd p) (umask p) (euid p) (egid p).

Definition root_node : node := mkNode KDir 493 0 0.

Definition lookup_node (m : gmap (list string) node) (k : key) : option node :=
  match k with
  | [] => Some root_node
  | _ => m !! k
  end.

Definition is_nil {A} (l : list A) : bool :=
  match l with [] => true | _ => false end.

Definition MAXSYMLINKS : nat := 32.

(** Path resolution: the names of [todo] are looked up one after the other
    from [cur].  A symbolic link met on the way is replaced by its target,
    which [follow] resolves; the last name is followed only if
    [follow_last].  The result is the place the path denotes, whether
    something exists there or not; every name before the last must denote
    a directory. *)
Definition walk_names (follow : key -> list string -> Errno + key)
  (m : gmap (list string) node) (follow_last : bool)
  : key -> list string -> Errno + key :=
  fix go (cur : key) (todo : list string) {struct todo} : Errno + key :=
    match todo with
    | [] => inr cur
    | c :: rest =>
        if String.eqb c "" || String.eqb c "." then go cur rest
        else if String.eqb c ".." then go (removelast cur) rest
        else
          let cand := cur ++ [c] in
          match m !! cand with
          | None => if is_nil rest then inr cand else inl ENOENT
          | Some n =>
              match nkind n with
              | KDir => go cand rest
              | KFile _ => if is_nil rest then inr cand else inl ENOTDIR
              | KSymlink t =>
                  if is_nil rest && negb follow_last then inr cand
                  else follow (if rooted t then [] else cur) (split_slash t ++ rest)
              end
          end
    end.

(** At most [fuel] symbolic links are followed in one resolution. *)
Fixpoint walk (fuel : nat) (m : gmap (list string) node) (follow_last : bool)
  : key -> list string -> Errno + key :=
  walk_names
    (match fuel with
     | O => fun _ _ => inl ELOOP
     | S f => walk f m follow_last
     end) m follow_last.

Definition path_names (path : string) : list string :=
  List.filter (fun c => negb (String.eqb c "")) (split_slash path).

Definition resolve (p : Proc) (follow_last : bool) (path : string) : Errno + key :=
  if String.eqb path "" then inl ENOENT
  else walk MAXSYMLINKS (fs p) follow_last
         (if rooted path then [] else cwd p) (path_names path).

(** [os.Stat] follows a final symbolic link, [os.Lstat] does not.  The
    [FileInfo] returned is the node itself. *)
Definition Stat (path : string) (p : Proc) : error + node :=
  match resolve p true path with
  | inl e => inl (PathError "stat" path e)
  | inr k =>
      match lookup_node (fs p) k with
      | Some n => inr n
      | None => inl (PathError "stat" path ENOENT)
      end
  end.

Definition Lstat (path : string) (p : Proc) : error + node :=
  match resolve p false path with
  | inl e => inl (PathError "lstat" path e)
  | inr k =>
      match lookup_node (fs p) k with
      | Some n => inr n
      | None => inl (PathError "lstat" path ENOENT)
      end
  end.

Definition IsDir (n : node) : bool :=
  match nkind n with KDir => true | _ => false end.

(** [os.Mkdir]. *)
Definition Mkdir (path : string) (perm : N) (p : Proc) : option error * Proc :=
  match resolve p false path with
  | inl e => (Some (PathError "mkdir" path e), p)
  | inr k =>
      match lookup_node (fs p) k with
      | Some _ => (Some (PathError "mkdir" path EEXIST), p)
      | None =>
          (None,
           set_fs p (<[k := mkNode KDir (N.ldiff perm (umask p)) (euid p) (egid p)]> (fs p)))
      end
  end.

(** The directories [os.MkdirAll] makes, name by name: an existing
    directory is entered, a missing one is made, anything else is an
    error. *)
Fixpoint mkdir_names (d : node) (m : gmap (list string) node) (cur : key)
  (todo : list string) : Errno + gmap (list string) node :=
  match todo with
  | [] => inr m
  | c :: rest =>
      if String.eqb c "" || String.eqb c "." then mkdir_names d m cur rest
      else if String.eqb c ".." then mkdir_names d m (removelast cur) rest
      else
        let cand := cur ++ [c] in
        match m !! cand with
        | None => mkdir_names d (<[cand := d]> m) cand rest
        | Some n =>
            match nkind n with
            | KDir => mkdir_names d m cand rest
            | KFile _ => inl ENOTDIR
            | KSymlink t =>
                match walk MAXSYMLINKS m true
                        (if rooted t then [] else cur) (path_names t) with
                | inl e => inl e
                | inr k =>
                    match lookup_node m k with
                    | Some n' => if IsDir n' then mkdir_names d m k rest
                                 else inl ENOTDIR
                    | None => inl EEXIST
                    end
                end
            end
        end
  end.

(** [os.MkdirAll]: makes the directory and every missing parent; an
    existing directory is not an error. *)
Definition MkdirAll (path : string) (perm : N) (p : Proc) : option error * Proc :=
  if String.eqb path "" then (Some (PathError "mkdir" path ENOENT), p)
  else
    match mkdir_names (mkNode KDir (N.ldiff perm (umask p)) (euid p) (egid p))
            (fs p) (if rooted path then [] else cwd p) (path_names path) with
    | inl e => (Some (PathError "mkdir" path e), p)
    | inr m => (None, set_fs p m)
    end.

(** [endsWithDot] of [os.RemoveAll]. *)
Definition endsWithDot (path : string) : bool :=
  String.eqb path "." || HasSuffix path "/.".

(** [os.RemoveAll]: removes the path and everything below it.  The empty
    path and a path that does not exist are no error; a final symbolic
    link is removed, not followed. *)
Definition RemoveAll (path : string) (p : Proc) : option error * Proc :=
  if String.eqb path "" then (None, p)
  else if endsWithDot path then (Some (PathError "RemoveAll" path EINVAL), p)
  else
    match resolve p false path with
    | inl ENOENT => (None, p)
    | inl e => (Some (PathError "unlinkat" path e), p)
    | inr k => (None, set_fs p (filter (fun kv => ¬ k `prefix_of` kv.1) (fs p)))
    end.

(** An open file is the place of its node. *)
Abbreviation File := (list string) (only parsing).

(** [os.Create]: the file is made with mode 0666 before umask, or
    truncated if it exists. *)
Definition Create (path : string) (p : Proc) : (error + File) * Proc :=
  match resolve p true path with
  | inl e => (inl (PathError "open" path e), p)
  | inr k =>
      match lookup_node (fs p) k with
      | None =>
          (inr k,
           set_fs p (<[k := mkNode (KFile "") (N.ldiff 438 (umask p)) (euid p) (egid p)]> (fs p)))
      | Some n =>
          match nkind n with
          | KFile _ =>
              (inr k, set_fs p (<[k := mkNode (KFile "") (nmode n) (nuid n) (ngid n)]> (fs p)))
          | KDir => (inl (PathError "open" path EISDIR), p)
          | KSymlink _ => (inl (PathError "open" path ELOOP), p)
          end
      end
  end.

(** [os.OpenFile(path, O_RDWR|O_CREATE|O_APPEND, 0666)]. *)
Definition OpenFile_append (path : string) (p : Proc) : (error + File) * Proc :=
  match resolve p true path with
  | inl e => (inl (PathError "open" path e), p)
  | inr k =>
      match lookup_node (fs p) k with
      | None =>
          (inr k,
           set_fs p (<[k := mkNode (KFile "") (N.ldiff 438 (umask p)) (euid p) (egid p)]> (fs p)))
      | Some n =>
          match nkind n with
          | KFile _ => (inr k, p)
          | KDir => (inl (PathError "open" path EISDIR), p)
          | KSymlink _ => (inl (PathError "open" path ELOOP), p)
          end
      end
  end.

(** [os.Open]: for reading; a directory can be opened. *)
Definition Open (path : string) (p : Proc) : error + File :=
  match resolve p true path with
  | inl e => inl (PathError "open" path e)
  | inr k =>
      match lookup_node (fs p) k with
      | Some _ => inr k
      | None => inl (PathError "open" path ENOENT)
      end
  end.

Definition append_content (s : string) (n : node) : node :=
  match nkind n with
  | KFile c => mkNode (KFile (c +:+ s)) (nmode n) (nuid n) (ngid n)
  | _ => n
  end.

(** [File.WriteString]: the program writes its files front to back. *)
Definition WriteString (f : File) (s : string) (p : Proc) : option error * Proc :=
  (None, set_fs p (alter (append_content s) f (fs p))).

(** [io.Copy(dst, src)]: reading a directory fails.  An open file is a
    regular file or a directory: [Open] follows symbolic links, and the
    program removes no file it still reads. *)
Definition io_Copy (dst src : File) (p : Proc) : option error * Proc :=
  match lookup_node (fs p) src with
  | Some n =>
      match nkind n with
      | KFile c => WriteString dst c p
      | KDir => (Some (PathError "read" (join_slash src) EISDIR), p)
      | KSymlink _ => (Some (PathError "read" (join_slash src) EINVAL), p)
      end
  | None => (Some (PathError "read" (join_slash src) EINVAL), p)
  end.

(** [io.ReadAll] of an open file. *)
Definition io_ReadAll (f : File) (p : Proc) : error + string :=
  match lookup_node (fs p) f with
  | Some n =>
      match nkind n with
      | KFile c => inr c
      | KDir => inl (PathError "read" (join_slash f) EISDIR)
      | KSymlink _ => inl (PathError "read" (join_slash f) EINVAL)
      end
  | None => inl (PathError "read" (join_slash f) EINVAL)
  end.

(** [File.Stat]. *)
Definition File_Stat (f : File) (p : Proc) : error + node :=
  match lookup_node (fs p) f with
  | Some n => inr n
  | None => inl (PathError "stat" (join_slash f) ENOENT)
  end.

(** [os.Chmod]: follows a final symbolic link; only the permission bits
    of the mode are used. *)
Definition Chmod (path : string) (mode : N) (p : Proc) : option error * Proc :=
  match resolve p true path with
  | inl e => (Some (PathError "chmod" path e), p)
  | inr k =>
      match (fs p) !! k with
      | Some n => (None, set_fs p (<[k := mkNode (nkind n) mode (nuid n) (ngid n)]> (fs p)))
      | None =>
          if is_nil k then (None, p) else (Some (PathError "chmod" path ENOENT), p)
      end
  end.

(** [os.Lchown]: does not follow a final symbolic link.  Only the
    superuser gives a file away; the others may set the group to their
    own. *)
Definition Lchown (path : string) (uid gid : N) (p : Proc) : option error * Proc :=
  match resolve p false path with
  | inl e => (Some (PathError "lchown" path e), p)
  | inr k =>
      match (fs p) !! k with
      | Some n =>
          if N.eqb (euid p) 0
             || (N.eqb uid (nuid n) && N.eqb (euid p) (nuid n)
                 && (N.eqb gid (ngid n) || N.eqb gid (egid p)))
          then (None, set_fs p (<[k := mkNode (nkind n) (nmode n) uid gid]> (fs p)))
          else (Some (PathError "lchown" path EPERM), p)
      | None =>
          if is_nil k then (None, p) else (Some (PathError "lchown" path ENOENT), p)
      end
  end.

(** [os.Readlink] and [os.Symlink]. *)
Definition Readlink (path : string) (p : Proc) : error + string :=
  match resolve p false path with
  | inl e => inl (PathError "readlink" path e)
  | inr k =>
      match (fs p) !! k with
      | Some n =>
          match nkind n with
          | KSymlink t => inr t
          | _ => inl (PathError "readlink" path EINVAL)
          end
      | None => inl (PathError "readlink" path (if is_nil k then EINVAL else ENOENT))
      end
  end.

Definition Symlink (target newname : string) (p : Proc) : option error * Proc :=
  match resolve p false newname with
  | inl e => (Some (PathError "symlink" newname e), p)
  | inr k =>
      match lookup_node (fs p) k with
      | Some _ => (Some (PathError "symlink" newname EEXIST), p)
      | None =>
          (None, set_fs p (<[k := mkNode (KSymlink target) 511 (euid p) (egid p)]> (fs p)))
      end
  end.

(** The name of [k'] when it lies directly in the directory [k]. *)
Fixpoint child_of (k k' : key) : option string :=
  match k, k' with
  | [], [c] => Some c
  | a :: r, b :: r' => if String.eqb a b then child_of r r' else None
  | _, _ => None
  end.

Fixpoint insert_name (c : string) (l : list string) : list string :=
  match l with
  | [] => [c]
  | d :: r => if String.leb c d then c :: l else d :: insert_name c r
  end.

Definition sort_names (l : list string) : list string :=
  fold_right insert_name [] l.

(** A [DirEntry] is the directory read and the name of the entry; its
    [Info] is an [Lstat] of that name, made when asked. *)
Record DirEntry := mkDirEntry { dir_of : key; Name : string }.

Definition Info (e : DirEntry) (p : Proc) : error + node :=
  match (fs p) !! (dir_of e ++ [Name e]) with
  | Some n => inr n
  | None => inl (PathError "lstat" (join_slash (dir_of e ++ [Name e])) ENOENT)
  end.

(** [os.ReadDir]: the entries of a directory, sorted by name. *)
Definition ReadDir (path : string) (p : Proc) : error + list DirEntry :=
  match resolve p true path with
  | inl e => inl (PathError "open" path e)
  | inr k =>
      match lookup_node (fs p) k with
      | Some n =>
          if IsDir n then
            inr (List.map (mkDirEntry k)
                   (sort_names (omap (fun kv => child_of k kv.1) (map_to_list (fs p)))))
          else inl (PathError "readdirent" path ENOTDIR)
      | None => inl (PathError "open" path ENOENT)
      end
  end.

End os.

(** ** Sequencing of calls that return an [error]

    [do s <- c; k] is Go's [err := c; if err != nil { return err }; k], and
    [do (x, s) <- c; k] the same for a call that also returns a value. *)

Module Go.
Import os.

Definition and_then {S : Type} (r : option error * S)
  (k : S -> option error * S) : option error * S :=
  match r with
  | (Some e, s) => (Some e, s)
  | (None, s) => k s
  end.

Definition with_value {A S : Type} (r : (error + A) * S)
  (k : A -> S -> option error * S) : option error * S :=
  match r with
  | (inl e, s) => (Some e, s)
  | (inr a, s) => k a s
  end.

Definition err_of {A : Type} (r : error + A) : option error :=
  match r with
  | inl e => Some e
  | inr _ => None
  end.

Definition errno_text (e : Errno) : string :=
  match e with
  | ENOENT => "no such file or directory"
  | ENOTDIR => "not a directory"
  | EISDIR => "is a directory"
  | EEXIST => "file exists"
  | EINVAL => "invalid argument"
  | ELOOP => "too many levels of symbolic links"
  | EPERM => "operation not permitted"
  | ENAMETOOLONG => "file name too long"
  end.

(** [err.Error()]. *)
Definition Error (e : error) : string :=
  match e with
  | PathError op path errno => op +:+ " " +:+ path +:+ ": " +:+ errno_text errno
  | errorString msg => msg
  end.

(** A call either returns, or ends the process with an exit status
    ([os.Exit], reached through [logger.Error] and [log.Fatalln]). *)
Inductive ret (A : Type) :=
  | Exit (status : nat)
  | Ret (a : A).
Arguments Exit {A} status.
Arguments Ret {A} a.

(** The double quote and the line feed, for the texts the program writes. *)
Definition dq : string := String (ascii_of_nat 34) EmptyString.
Definition nl : string := String (ascii_of_nat 10) EmptyString.

End Go.

Notation "'do' s <- r ; k" := (Go.and_then r (fun s => k))
  (at level 10, s name, r at level 100, k at level 200).
Notation "'do' ( x , s ) <- r ; k" := (Go.with_value r (fun x s => k))
  (at level 10, x name, s name, r at level 100, k at level 200).

(** ** Package [fileManagement] *)

Module fileManagement.
Import GoStrings filepath os Go.

(** [Copy]: the destination is created first, then the source is opened
    and its content copied. *)
Definition Copy (srcFile dstFile : string) (p : Proc) : option error * Proc :=
  do (out, p) <- Create dstFile p;
  do (inf, p) <- (Open srcFile p, p);
  io_Copy out inf p.

Definition Exists (filePath : string) (p : Proc) : bool :=
  negb (IsNotExist (err_of (Stat filePath p))).

Definition CreateIfNotExists (dir : string) (perm : N) (p : Proc)
  : option error * Proc :=
  if Exists dir p then (None, p)
  else
    match MkdirAll dir perm p with
    | (Some err, p1) =>
        (Some (errorString ("failed to create directory: '" +:+ dir +:+
                            "', error: '" +:+ Error err +:+ "'")), p1)
    | (None, p1) => (None, p1)
    end.

Definition CopySymLink (source dest : string) (p : Proc) : option error * Proc :=
  do (link, p) <- (Readlink source p, p);
  Symlink link dest p.

Definition isSymlink (n : node) : bool :=
  match nkind n with KSymlink _ => true | _ => false end.

(** The system refuses a path name longer than [PATH_MAX] bytes (1024 on
    macOS); every level of a directory tree adds two bytes at least to the
    name, which bounds the depth [CopyDirectory] reaches before [os.Stat]
    or [os.ReadDir] fails. *)
Definition PATH_MAX_depth : nat := 512.

(** [CopyDirectory], [depth] levels deep at most.  [os.Stat] follows
    symbolic links, so the [fileInfo] that selects the case is the one of
    the link's target. *)
Fixpoint CopyDirectory_depth (depth : nat) (scrDir dest : string) (p : Proc)
  : option error * Proc :=
  match depth with
  | O => (Some (PathError "open" scrDir ENAMETOOLONG), p)
  | S depth' =>
      do (entries, p) <- (ReadDir scrDir p, p);
      (fix loop (entries : list DirEntry) (p : Proc) {struct entries}
         : option error * Proc :=
         match entries with
         | [] => (None, p)
         | entry :: rest =>
             let sourcePath := Join scrDir (Name entry) in
             let destPath := Join dest (Name entry) in
             do (fileInfo, p) <- (Stat sourcePath p, p);
             do p <- match nkind fileInfo with
                     | KDir =>
                         do p <- CreateIfNotExists destPath 493 p;
                         CopyDirectory_depth depth' sourcePath destPath p
                     | KSymlink _ => CopySymLink sourcePath destPath p
                     | KFile _ => Copy sourcePath destPath p
                     end;
             do p <- Lchown destPath (nuid fileInfo) (ngid fileInfo) p;
             do (fInfo, p) <- (Info entry p, p);
             do p <- (if negb (isSymlink fInfo)
                      then Chmod destPath (nmode fInfo) p
                      else (None, p));
             loop rest p
         end) entries p
  end.

Definition CopyDirectory : string -> string -> Proc -> option error * Proc :=
  CopyDirectory_depth PATH_MAX_depth.

End fileManagement.

(** ** Package [application] *)

Module application.
Import GoStrings filepath os Go.

(** *** readDescriptionFile.go *)

Record packageParameter := mkPackageParameter {
  BundleIdentifier : string;
  BundleName : string;
  BundleVersion : string;
  BundleDisplayName : string;
  BundlePackageType : string;
  BundleExecutable : string;
  BundleSignature : string;
  ExecFileName : string;
  ExecFileDirectory : string;
  IconFileName : string;
  IconFileDirectory : string;
  MinimumMacOSVersion : string;
  CFBundleDocumentTypes : string;
  CFBundleShortVersionString : string;
  NSHumanReadableCopyright : string;
  NSMainNibFile : string;
  NSPrincipalClass : string;
  LocalJava : string;
  LocalJavaHome : string;
  LocalExecDirectory : string
}.

(** The process and the package-level variables of the program:
    [packageInfo] of readDescriptionFile.go and the six paths of
    directoryManagement.go. *)
Record State := mkState {
  proc : Proc;
  packageInfo : packageParameter;
  applicationDirectory : string;
  contentsDir : string;
  macosDir : string;
  resourcesDir : string;
  javaDir : string;
  runtimeDir : string
}.

Definition set_proc (s : State) (p : Proc) : State :=
  mkState p (packageInfo s) (applicationDirectory s) (contentsDir s)
    (macosDir s) (resourcesDir s) (javaDir s) (runtimeDir s).

Definition set_packageInfo (s : State) (c : packageParameter) : State :=
  mkState (proc s) c (applicationDirectory s) (contentsDir s)
    (macosDir s) (resourcesDir s) (javaDir s) (runtimeDir s).

(** A call of package [os] made by the program. *)
Definition sys {A : Type} (f : Proc -> A * Proc) (s : State) : A * State :=
  let '(a, p) := f (proc s) in (a, set_proc s p).

(** A call that only reads the file system. *)
Definition ask {A : Type} (f : Proc -> A) (s : State) : A * State :=
  (f (proc s), s).

Definition zero_packageParameter : packageParameter :=
  mkPackageParameter "" "" "" "" "" "" "" "" "" "" "" "" "" "" "" "" "" "" "" "".

(** The variables as the Go runtime initialises them. *)
Definition initial_State (p : Proc) : State :=
  mkState p zero_packageParameter "" "" "" "" "" "".

Definition GetBundleIdentifier (s : State) := BundleIdentifier (packageInfo s).
Definition GetBundleName (s : State) := BundleName (packageInfo s).
Definition GetBundleVersion (s : State) := BundleVersion (packageInfo s).
Definition GetBundleExecutable (s : State) := BundleExecutable (packageInfo s).
Definition GetMinimumMacOSVersion (s : State) := MinimumMacOSVersion (packageInfo s).
Definition GetIconFileName (s : State) := IconFileName (packageInfo s).
Definition GetIconFileDirectory (s : State) := IconFileDirectory (packageInfo s).

Definition GetPackageType (s : State) : string :=
  if negb (String.eqb (BundlePackageType (packageInfo s)) "")
  then BundlePackageType (packageInfo s)
  else "APP".

Definition GetExecutableName (s : State) := ExecFileName (packageInfo s).
Definition GetExecutableDirectory (s : State) := ExecFileDirectory (packageInfo s).

Definition GetUseLocalJava (s : State) : bool :=
  if String.eqb (ToLower (LocalJava (packageInfo s))) "true" then true else false.

Definition GetJavaHomeDirectory (s : State) := LocalJavaHome (packageInfo s).
Definition GetBundleDisplayName (s : State) := BundleDisplayName (packageInfo s).
Definition GetBundleSignature (s : State) := BundleSignature (packageInfo s).
Definition GetCFBundleDocumentTypes (s : State) := CFBundleDocumentTypes (packageInfo s).
Definition GetCFBundleShortVersionString (s : State) :=
  CFBundleShortVersionString (packageInfo s).
Definition GetNSHumanReadableCopyright (s : State) :=
  NSHumanReadableCopyright (packageInfo s).
Definition GetNSMainNibFile (s : State) := NSMainNibFile (packageInfo s).
Definition GetNSPrincipalClass (s : State) := NSPrincipalClass (packageInfo s).
Definition GetLocalExecDirectory (s : State) := LocalExecDirectory (packageInfo s).

(** [ValidateConfiguration]: the three existence checks; it reads the file
    system and changes nothing. *)
Definition ValidateConfiguration (s : State) : option error :=
  let execFile := GetExecutableName s in
  let execDir := GetExecutableDirectory s in
  let execDir :=
    if negb (String.eqb (GetLocalExecDirectory s) "")
    then GetLocalExecDirectory s else execDir in
  let fullExecPath := Join execDir execFile in
  if IsNotExist (err_of (Stat fullExecPath (proc s))) then
    Some (errorString ("executable file not found: " +:+ fullExecPath))
  else
    let iconFile := GetIconFileName s in
    let fullIconPath := Join (GetIconFileDirectory s) iconFile in
    if negb (String.eqb iconFile "")
       && IsNotExist (err_of (Stat fullIconPath (proc s))) then
      Some (errorString ("icon file not found: " +:+ fullIconPath))
    else
      let javaHome := GetJavaHomeDirectory s in
      if GetUseLocalJava s && IsNotExist (err_of (Stat javaHome (proc s))) then
        Some (errorString ("local Java home directory not found: " +:+ javaHome))
      else None.

(** *** directoryManagement.go *)

Definition createDir (path : string) (s : State) : option error * State :=
  sys (MkdirAll path 493) s.

Definition DeleteAll (s : State) : option error * State :=
  sys (RemoveAll (applicationDirectory s)) s.

(** [creationError := createDir(path); if creationError != nil
    { DeleteAll(); return creationError }]. *)
Definition createDir_or_DeleteAll (path : State -> string) (s : State)
  : option error * State :=
  match createDir (path s) s with
  | (Some creationError, s1) => (Some creationError, snd (DeleteAll s1))
  | (None, s1) => (None, s1)
  end.

Definition CreateDirectoryStructure (applicationRoot : string) (s : State)
  : option error * State :=
  if negb (String.eqb applicationRoot "") then
    let applicationDirectory' := applicationRoot +:+ ".app" in
    let contentsDir' := Join applicationDirectory' "Contents" in
    let macosDir' := Join contentsDir' "MacOS" in
    let resourcesDir' := Join contentsDir' "Resources" in
    let javaDir' := Join contentsDir' "Java" in
    let runtimeDir' := Join javaDir' "runtime" in
    let s := mkState (proc s) (packageInfo s) applicationDirectory' contentsDir'
               macosDir' resourcesDir' javaDir' runtimeDir' in
    do s <- createDir_or_DeleteAll applicationDirectory s;
    do s <- createDir_or_DeleteAll contentsDir s;
    do s <- createDir_or_DeleteAll macosDir s;
    do s <- createDir_or_DeleteAll resourcesDir s;
    do s <- createDir_or_DeleteAll javaDir s;
    do s <- createDir_or_DeleteAll runtimeDir s;
    (None, s)
  else
    (Some (errorString "Application root directory cannot be empty"), s).

(** *** pListCreator.go *)

Module InfoPlistData.
Record t := mk {
  BundleIdentifier : string;
  BundleName : string;
  BundleDisplayName : string;
  BundleVersion : string;
  ShortVersionString : string;
  ExecutableName : string;
  Signature : string;
  MinSystemVersion : string;
  IconFile : string;
  PackageType : string;
  Copyright : string;
  PrincipalClass : string;
  MainNibFile : string
}.
End InfoPlistData.

(** One [<key>..</key>] line of the template followed by its
    [<string>..</string>] line, both indented by four spaces. *)
Definition plist_entry (k v : string) : string :=
  "    <key>" +:+ k +:+ "</key>" +:+ nl +:+
  "    <string>" +:+ v +:+ "</string>" +:+ nl.

(** [{{if .F}}<key>K</key>\n    <string>{{.F}}</string>{{end}}]: a string
    is true in a template when it is not empty. *)
Definition plist_optional (k v : string) : string :=
  if negb (String.eqb v "") then
    "<key>" +:+ k +:+ "</key>" +:+ nl +:+ "    <string>" +:+ v +:+ "</string>"
  else "".

(** The text [tmpl.Execute] writes for [plistTemplate]; package
    [text/template] inserts the fields as they are. *)
Definition render_plistTemplate (d : InfoPlistData.t) : string :=
  "<?xml version=" +:+ dq +:+ "1.0" +:+ dq +:+ " encoding=" +:+ dq +:+ "UTF-8"
    +:+ dq +:+ "?>" +:+ nl +:+
  "<!DOCTYPE plist PUBLIC " +:+ dq +:+ "-//Apple//DTD PLIST 1.0//EN" +:+ dq
    +:+ " " +:+ dq +:+ "http://www.apple.com/DTDs/PropertyList-1.0.dtd" +:+ dq
    +:+ ">" +:+ nl +:+
  "<plist version=" +:+ dq +:+ "1.0" +:+ dq +:+ ">" +:+ nl +:+
  "<dict>" +:+ nl +:+
  plist_entry "CFBundleIdentifier" (InfoPlistData.BundleIdentifier d) +:+
  plist_entry "CFBundleName" (InfoPlistData.BundleName d) +:+
  plist_entry "CFBundleDisplayName" (InfoPlistData.BundleDisplayName d) +:+
  plist_entry "CFBundleVersion" (InfoPlistData.BundleVersion d) +:+
  plist_entry "CFBundleShortVersionString" (InfoPlistData.ShortVersionString d) +:+
  plist_entry "CFBundleExecutable" (InfoPlistData.ExecutableName d) +:+
  plist_entry "CFBundleSignature" (InfoPlistData.Signature d) +:+
  plist_entry "LSMinimumSystemVersion" (InfoPlistData.MinSystemVersion d) +:+
  plist_entry "CFBundleIconFile" (InfoPlistData.IconFile d) +:+
  plist_entry "CFBundlePackageType" (InfoPlistData.PackageType d) +:+
  plist_entry "NSHumanReadableCopyright" (InfoPlistData.Copyright d) +:+
  "    " +:+ plist_optional "NSPrincipalClass" (InfoPlistData.PrincipalClass d)
    +:+ nl +:+
  "    " +:+ plist_optional "NSMainNibFile" (InfoPlistData.MainNibFile d)
    +:+ nl +:+
  "</dict>" +:+ nl +:+
  "</plist>".

Definition cleanAfterError (err : error) (s : State) : option error * State :=
  if negb (String.eqb (applicationDirectory s) "")
  then (Some err, snd (DeleteAll s))
  else (Some err, s).

Definition CreatePkgInfo (s : State) : option error * State :=
  let pkgInfoFileName := Join (contentsDir s) "PkgInfo" in
  match sys (Create pkgInfoFileName) s with
  | (inl err, s) => cleanAfterError err s
  | (inr file, s) =>
      let packageType := GetPackageType s in
      let packageType :=
        if negb (Nat.eqb (String.length packageType) 4) then "APPL"
        else packageType in
      let signature := GetBundleSignature s in
      let signature :=
        if negb (Nat.eqb (String.length signature) 4) then "????"
        else signature in
      sys (WriteString file (packageType +:+ signature)) s
  end.

Definition plistStructure_of (s : State) : InfoPlistData.t :=
  {| InfoPlistData.BundleIdentifier := GetBundleIdentifier s;
     InfoPlistData.BundleVersion := GetBundleVersion s;
     InfoPlistData.BundleName := GetBundleName s;
     InfoPlistData.BundleDisplayName := GetBundleDisplayName s;
     InfoPlistData.ShortVersionString := GetCFBundleShortVersionString s;
     InfoPlistData.ExecutableName := GetBundleExecutable s;
     InfoPlistData.Signature := GetBundleSignature s;
     InfoPlistData.MinSystemVersion := GetMinimumMacOSVersion s;
     InfoPlistData.IconFile := GetIconFileName s;
     InfoPlistData.PackageType := GetPackageType s;
     InfoPlistData.Copyright := GetNSHumanReadableCopyright s;
     InfoPlistData.PrincipalClass := GetNSPrincipalClass s;
     InfoPlistData.MainNibFile := GetNSMainNibFile s |}.

Definition mandatory_missing (d : InfoPlistData.t) : bool :=
  String.eqb (InfoPlistData.BundleIdentifier d) ""
  || String.eqb (InfoPlistData.BundleVersion d) ""
  || String.eqb (InfoPlistData.BundleName d) ""
  || String.eqb (InfoPlistData.ExecutableName d) ""
  || String.eqb (InfoPlistData.MinSystemVersion d) ""
  || String.eqb (InfoPlistData.IconFile d) "".

(** [CreatePlist].  Parsing the constant template cannot fail; executing
    it writes the rendered text to the file. *)
Definition CreatePlist (s : State) : option error * State :=
  let plistStructure := plistStructure_of s in
  let plistFileName := Join (contentsDir s) "Info.plist" in
  do s <- CreatePkgInfo s;
  if mandatory_missing plistStructure then
    (Some (errorString "Info.plist <mandatory fields missing>"), s)
  else
    match sys (Create plistFileName) s with
    | (inl err, s) => cleanAfterError err s
    | (inr file, s) =>
        match sys (WriteString file (render_plistTemplate plistStructure)) s with
        | (Some err, s) => cleanAfterError err s
        | (None, s) => (None, s)
        end
    end.

(** *** copyExecutable.go *)

Definition launcher_local_java (execFile : string) : string :=
  "#!/bin/bash" +:+ nl +:+ nl +:+
  "DIR=" +:+ dq +:+ "$(cd " +:+ dq +:+ "$(dirname " +:+ dq +:+ "$0" +:+ dq
    +:+ ")" +:+ dq +:+ " && pwd)" +:+ dq +:+ nl +:+
  "export JAVA_HOME=" +:+ dq +:+ "$DIR/../Java/runtime" +:+ dq +:+ nl +:+
  dq +:+ "$JAVA_HOME/bin/java" +:+ dq +:+ " -jar " +:+ dq +:+ "$DIR/"
    +:+ execFile +:+ dq +:+ nl.

Definition launcher_system_java (execFile : string) : string :=
  "#!/bin/bash" +:+ nl +:+ nl +:+
  "DIR=" +:+ dq +:+ "$(cd " +:+ dq +:+ "$(dirname " +:+ dq +:+ "$0" +:+ dq
    +:+ ")" +:+ dq +:+ " && pwd)" +:+ dq +:+ nl +:+
  "java -jar " +:+ dq +:+ "$DIR/" +:+ execFile +:+ dq +:+ nl.

Definition copyJarExec (execPath execFile : string) (s : State)
  : option error * State :=
  let executableName := Join (macosDir s) (GetBundleExecutable s) in
  do s <- (if GetUseLocalJava s then
             let javaSourceName := GetJavaHomeDirectory s in
             let javaDestName := Join (javaDir s) "runtime" in
             sys (fileManagement.CopyDirectory javaSourceName javaDestName) s
           else (None, s));
  let compiledJarSourceName := Join execPath execFile in
  let compiledJarTargetName := Join (macosDir s) execFile in
  do s <- sys (fileManagement.Copy compiledJarSourceName compiledJarTargetName) s;
  do (file, s) <- sys (Create executableName) s;
  let startString :=
    if GetUseLocalJava s then launcher_local_java execFile
    else launcher_system_java execFile in
  do s <- sys (WriteString file startString) s;
  do s <- sys (Chmod executableName 493) s;
  (None, s).

Definition copyCompExec (execPath execFile : string) (s : State)
  : option error * State :=
  let executablePath := Join (macosDir s) execFile in
  let sourceFileName := Join execPath execFile in
  do s <- sys (fileManagement.Copy sourceFileName executablePath) s;
  do s <- sys (Chmod executablePath 493) s;
  (None, s).

(** [CopyExecutable]: the error of the strategy is logged and dropped. *)
Definition CopyExecutable (s : State) : option error * State :=
  let execFile := GetExecutableName s in
  let execPath := GetExecutableDirectory s in
  let execPath :=
    if negb (String.eqb (GetLocalExecDirectory s) "")
    then GetLocalExecDirectory s else execPath in
  let '(err, s) :=
    if HasSuffix execFile "jar" then copyJarExec execPath execFile s
    else copyCompExec execPath execFile s in
  (None, s).

(** *** copyIcon.go *)

Definition CopyIcon (s : State) : option error * State :=
  let iconSource := GetIconFileName s in
  let iconDirectory := GetIconFileDirectory s in
  let iconPath := Join (resourcesDir s) iconSource in
  if String.eqb iconSource "" then
    (Some (errorString ("icon filename " +:+ iconSource +:+ " is not defined")), s)
  else
    let iconSource :=
      if negb (String.eqb iconDirectory "") then Join iconDirectory iconSource
      else iconSource in
    do (sourceFile, s) <- ask (Open iconSource) s;
    do (destinationFile, s) <- sys (Create iconPath) s;
    do s <- sys (io_Copy destinationFile sourceFile) s;
    do (sourceFileInfo, s) <- ask (File_Stat sourceFile) s;
    do s <- sys (Chmod iconPath (nmode sourceFileInfo)) s;
    (None, s).

(** *** What the program takes from outside the file system

    The YAML decoder, the clock, the programs found in [PATH] and run with
    [os/exec], and the match of the regular expression of
    [getDefaultSigningIdentity] on the output of [security]. *)

Record CmdResult := mkCmdResult {
  cmd_err : option string;
  cmd_stdout : string;
  cmd_stderr : string
}.

Record Env := mkEnv {
  yaml_Unmarshal : string -> packageParameter -> error + packageParameter;
  time_Now : string;
  exec_LookPath : string -> option string;
  exec_Run : list string -> Proc -> CmdResult * Proc;
  identity_submatch : string -> option string
}.

(** [Read]: every failure goes through [logger.Error], which ends the
    process with status 1. *)
Definition Read (env : Env) (packageFileName : string) (s : State)
  : ret (option error) * State :=
  let packageFileName :=
    if String.eqb packageFileName "" then "application.yaml"
    else packageFileName in
  match Open packageFileName (proc s) with
  | inl err => (Exit 1, s)
  | inr file =>
      match io_ReadAll file (proc s) with
      | inl err => (Exit 1, s)
      | inr data =>
          match yaml_Unmarshal env data (packageInfo s) with
          | inl err => (Exit 1, s)
          | inr c => (Ret None, set_packageInfo s c)
          end
      end
  end.

(** *** signApplication.go *)

(** [fileManagement.FindProgramPath]. *)
Definition FindProgramPath (env : Env) (program : string) : error + string :=
  match exec_LookPath env program with
  | Some path => inr path
  | None => inl (errorString ("program " +:+ dq +:+ program +:+ dq
                              +:+ " not found in PATH"))
  end.

Definition getDefaultSigningIdentity (env : Env) (s : State)
  : ret (error + string) * State :=
  match FindProgramPath env "security" with
  | inl err => (Exit 1, s)
  | inr securityPath =>
      let '(out, s) :=
        sys (exec_Run env [securityPath; "find-identity"; "-p"; "codesigning"; "-v"]) s in
      match cmd_err out with
      | Some err =>
          (Ret (inl (errorString ("failed to run security tool: " +:+ err))), s)
      | None =>
          match identity_submatch env (cmd_stdout out) with
          | None =>
              (Ret (inl (errorString
                 "no valid code signing identity found in keychain")), s)
          | Some name => (Ret (inr name), s)
          end
      end
  end.

Definition VerifyApplicationSignature (env : Env) (appPath : string) (s : State)
  : ret (option error) * State :=
  match FindProgramPath env "codesign" with
  | inl err => (Exit 1, s)
  | inr codeSignPath =>
      let '(out, s) :=
        sys (exec_Run env
               [codeSignPath; "--verify"; "--deep"; "--strict"; "--verbose=2"; appPath]) s in
      match cmd_err out with
      | Some err =>
          (Ret (Some (errorString
             ("signature verification failed for " +:+ dq +:+ appPath +:+ dq
              +:+ ": " +:+ err +:+ nl +:+ cmd_stderr out))), s)
      | None => (Ret None, s)
      end
  end.

Definition SignApplication (env : Env) (s : State) : ret (option error) * State :=
  match FindProgramPath env "codesign" with
  | inl err => (Exit 1, s)
  | inr codeSignPath =>
      match getDefaultSigningIdentity env s with
      | (Exit status, s) => (Exit status, s)
      | (Ret (inl err), s) => (Exit 1, s)
      | (Ret (inr ident), s) =>
          let '(out, s) :=
            sys (exec_Run env
                   [codeSignPath; "--sign"; ident; "--deep"; "--force";
                    "--options"; "runtime"; "--timestamp"; applicationDirectory s]) s in
          match cmd_err out with
          | Some err =>
              (Ret (Some (errorString
                 ("failed to sign " +:+ dq +:+ applicationDirectory s +:+ dq
                  +:+ ": " +:+ err +:+ nl +:+ cmd_stderr out))), s)
          | None => VerifyApplicationSignature env (applicationDirectory s) s
          end
      end
  end.

Definition NotarizeApplication (env : Env) (applicationRoot appleIDProfile : string)
  (s : State) : ret (option error) * State :=
  let zipApplication := applicationRoot +:+ ".zip" in
  match FindProgramPath env "zip" with
  | inl err => (Exit 1, s)
  | inr zipPath =>
      let '(out, s) :=
        sys (exec_Run env [zipPath; "-r"; zipApplication; applicationRoot]) s in
      match cmd_err out with
      | Some err =>
          (Ret (Some (errorString
             ("failed to zip app for notarization: " +:+ err))), s)
      | None =>
          match FindProgramPath env "xcrun" with
          | inl err => (Exit 1, s)
          | inr xcrunPath =>
              let '(out, s) :=
                sys (exec_Run env
                       [xcrunPath; "notarytool"; "submit"; zipApplication;
                        "--keychain-profile"; appleIDProfile; "--wait"]) s in
              match cmd_err out with
              | Some err =>
                  (Ret (Some (errorString
                     ("notarization failed: " +:+ err +:+ nl +:+ cmd_stderr out))), s)
              | None => (Ret None, s)
              end
          end
      end
  end.

End application.

(** ** Package [logger]

    What the logger prints, on the terminal and into the log file, is not
    modelled; making the log file is. *)

Module logger.
Import GoStrings filepath os Go application.

(** [SetLogFile]: the file is [<appName>_<time>.log] in [logDir]. *)
Definition SetLogFile (env : Env) (appName logDir : string) (p : Proc)
  : option error * Proc :=
  let fileName := appName +:+ "_" +:+ time_Now env +:+ ".log" in
  match (if negb (String.eqb logDir "") then
           match MkdirAll logDir 493 p with
           | (Some err, p) =>
               (inl (errorString ("failed to create log directory: " +:+ Error err)), p)
           | (None, p) => (inr (Join logDir fileName), p)
           end
         else (inr fileName, p)) with
  | (inl e, p) => (Some e, p)
  | (inr filePath, p) =>
      match OpenFile_append filePath p with
      | (inl err, p) =>
          (Some (errorString ("failed to open log file: " +:+ Error err)), p)
      | (inr _, p) => (None, p)
      end
  end.

End logger.

(** ** Package [main] *)

Module main.
Import GoStrings filepath os Go application.

Record Flags := mkFlags {
  applicationNameFlag : string;
  packageFileFlag : string;
  cleanFlag : bool;
  signFlag : bool;
  deleteFlag : bool;
  notariseFlag : bool;
  appleIDProfileFlag : string;
  silentFlag : bool;
  logDirFlag : string
}.

(** [errorExit]: [logger.Error] ends the process with status 1; nothing
    is removed. *)
Definition errorExit (err : option error) (s : State) : ret unit * State :=
  match err with
  | Some _ => (Exit 1, s)
  | None => (Ret tt, s)
  end.

Definition exit_or {A : Type} (r : ret A * State)
  (k : A -> State -> ret unit * State) : ret unit * State :=
  match r with
  | (Exit status, s) => (Exit status, s)
  | (Ret a, s) => k a s
  end.

(** [packageFileError = step; if packageFileError != nil
    { errorExit(packageFileError) }]. *)
Definition stage (step : State -> option error * State)
  (k : State -> ret unit * State) (s : State) : ret unit * State :=
  let '(packageFileError, s) := step s in
  exit_or (errorExit packageFileError s) (fun _ => k).

(** The start of [main], up to the test of the clean flag: the
    description file is read, the configuration validated, the log file
    set up.  At the end the directory variables are as they were. *)
Definition main_setup (flags : Flags) (env : Env) (s : State) : ret unit * State :=
  let applicationName := applicationNameFlag flags in
  exit_or (Read env (packageFileFlag flags) s) (fun packageFileError s =>
  match packageFileError with
  | Some _ => (Exit 1, s)
  | None =>
      match ValidateConfiguration s with
      | Some err => (Exit 1, s)
      | None =>
          let applicationName :=
            if String.eqb applicationName "" then GetBundleName s
            else applicationName in
          if negb (String.eqb (logDirFlag flags) "") then
            let logFileName :=
              if String.eqb applicationName "" then "appbundler"
              else applicationName in
            (Ret tt, snd (sys (logger.SetLogFile env logFileName (logDirFlag flags)) s))
          else (Ret tt, s)
      end
  end).

(** The optional stages after the bundle is built. *)
Definition main_sign (flags : Flags) (env : Env)
  (k : State -> ret unit * State) (s : State) : ret unit * State :=
  if signFlag flags then
    exit_or (SignApplication env s) (fun packageFileError s =>
    exit_or (errorExit packageFileError s) (fun _ => k))
  else k s.

Definition main_notarize (flags : Flags) (env : Env)
  (k : State -> ret unit * State) (s : State) : ret unit * State :=
  if notariseFlag flags then
    exit_or (if String.eqb (appleIDProfileFlag flags) ""
             then errorExit (Some (errorString
                    "notarization requires an Apple ID profile (use -profile <name>)")) s
             else (Ret tt, s)) (fun _ s =>
    exit_or (NotarizeApplication env (GetBundleName s) (appleIDProfileFlag flags) s)
      (fun packageFileError s =>
    exit_or (errorExit packageFileError s) (fun _ => k)))
  else k s.

Definition main_delete (flags : Flags) (s : State) : ret unit * State :=
  if deleteFlag flags then stage DeleteAll (fun s => (Ret tt, s)) s
  else (Ret tt, s).

(** [main] from the test of the clean flag on. *)
Definition main_build (flags : Flags) (env : Env) (s : State) : ret unit * State :=
  let s := if cleanFlag flags then snd (DeleteAll s) else s in
  stage (fun s => CreateDirectoryStructure (GetBundleName s) s) (
  stage CreatePlist (
  stage CopyExecutable (
  stage CopyIcon (
  main_sign flags env (
  main_notarize flags env (
  main_delete flags)))))) s.

(** [main]: the process starts with the package variables at their zero
    values; returning from [main] is exit status 0. *)
Definition main (flags : Flags) (env : Env) (p : Proc) : ret unit * State :=
  exit_or (main_setup flags env (initial_State p)) (fun _ => main_build flags env).

End main.

(** ** Vocabulary of the statements *)

Module Spec.
Import GoStrings filepath os Go application main.

(** A string without a path separator. *)
Fixpoint plain (s : string) : bool :=
  match s with
  | EmptyString => true
  | String c r => negb (Ascii.eqb c "/") && plain r
  end.

(** A file name: not empty, no separator, neither [.] nor [..]. *)
Definition is_name (c : string) : bool :=
  plain c && negb (String.eqb c "") && negb (String.eqb c ".")
  && negb (String.eqb c "..").

(** The content of the regular file a path leads to. *)
Definition file_content (path : string) (p : Proc) : option string :=
  match Stat path p with
  | inr n => match nkind n with KFile c => Some c | _ => None end
  | inl _ => None
  end.

Definition file_mode (path : string) (p : Proc) : option N :=
  match Stat path p with
  | inr n => Some (nmode n)
  | inl _ => None
  end.

(** Whether a path leads to a symbolic link. *)
Definition is_symlink (path : string) (p : Proc) : bool :=
  match Lstat path p with
  | inr n => fileManagement.isSymlink n
  | inl _ => false
  end.


(** The six mandatory fields of the property list. *)
Definition mandatory_field_empty (s : State) : Prop :=
  GetBundleIdentifier s = "" \/ GetBundleVersion s = "" \/ GetBundleName s = ""
  \/ GetBundleExecutable s = "" \/ GetMinimumMacOSVersion s = ""
  \/ GetIconFileName s = "".



(** The place of the bundle root of an application named [name], for a
    process working in [cwd p]. *)
Definition root_key (p : Proc) (name : string) : key :=
  cwd p ++ [name +:+ ".app"].

Definition set_cleanFlag (flags : Flags) (b : bool) : Flags :=
  mkFlags (applicationNameFlag flags) (packageFileFlag flags) b
    (signFlag flags) (deleteFlag flags) (notariseFlag flags)
    (appleIDProfileFlag flags) (silentFlag flags) (logDirFlag flags).

End Spec.

(** ** Concrete runs *)

Module Scenario.
Import GoStrings filepath os Go application main Spec.

(** A user with uid 501 and umask 022 works in [/work]. *)
Definition regular (c : string) : node := mkNode (KFile c) 420 501 20.
Definition directory : node := mkNode KDir 493 501 20.
Definition link (t : string) : node := mkNode (KSymlink t) 511 501 20.

Definition proc_of (l : list (list string * node)) : Proc :=
  mkProc (list_to_map ((["work"], directory) :: l)) ["work"] 18 501 20.

(** The descriptor of the end-to-end scenario; the fields are, in
    order: id, name, version, display name, type, executable, signature,
    exec_file, its directory, icon_file, its directory, minimal OS
    version, document types, short version, copyright, main nib,
    principal class, local_java, local_java_home, local_exec_directory. *)
Definition sample : packageParameter :=
  mkPackageParameter "com.x.sample" "Sample" "1.0" "" "" "launch" ""
    "app.jar" "" "icon.icns" "" "10.13.0" "" "" "" "" "" "false" "" "".

Definition with_exec_file (c : packageParameter) (f : string) : packageParameter :=
  mkPackageParameter (BundleIdentifier c) (BundleName c) (BundleVersion c)
    (BundleDisplayName c) (BundlePackageType c) (BundleExecutable c)
    (BundleSignature c) f (ExecFileDirectory c) (IconFileName c)
    (IconFileDirectory c) (MinimumMacOSVersion c) (CFBundleDocumentTypes c)
    (CFBundleShortVersionString c) (NSHumanReadableCopyright c)
    (NSMainNibFile c) (NSPrincipalClass c) (LocalJava c) (LocalJavaHome c)
    (LocalExecDirectory c).


Definition with_type_signature (c : packageParameter) (t g : string)
  : packageParameter :=
  mkPackageParameter (BundleIdentifier c) (BundleName c) (BundleVersion c)
    (BundleDisplayName c) t (BundleExecutable c) g (ExecFileName c)
    (ExecFileDirectory c) (IconFileName c) (IconFileDirectory c)
    (MinimumMacOSVersion c) (CFBundleDocumentTypes c)
    (CFBundleShortVersionString c) (NSHumanReadableCopyright c)
    (NSMainNibFile c) (NSPrincipalClass c) (LocalJava c) (LocalJavaHome c)
    (LocalExecDirectory c).

Definition with_identifier (c : packageParameter) (i : string) : packageParameter :=
  mkPackageParameter i (BundleName c) (BundleVersion c)
    (BundleDisplayName c) (BundlePackageType c) (BundleExecutable c)
    (BundleSignature c) (ExecFileName c) (ExecFileDirectory c) (IconFileName c)
    (IconFileDirectory c) (MinimumMacOSVersion c) (CFBundleDocumentTypes c)
    (CFBundleShortVersionString c) (NSHumanReadableCopyright c)
    (NSMainNibFile c) (NSPrincipalClass c) (LocalJava c) (LocalJavaHome c)
    (LocalExecDirectory c).

Definition with_local_java (c : packageParameter) (home : string) : packageParameter :=
  mkPackageParameter (BundleIdentifier c) (BundleName c) (BundleVersion c)
    (BundleDisplayName c) (BundlePackageType c) (BundleExecutable c)
    (BundleSignature c) (ExecFileName c) (ExecFileDirectory c) (IconFileName c)
    (IconFileDirectory c) (MinimumMacOSVersion c) (CFBundleDocumentTypes c)
    (CFBundleShortVersionString c) (NSHumanReadableCopyright c)
    (NSMainNibFile c) (NSPrincipalClass c) "true" home
    (LocalExecDirectory c).

(** The description file decodes to [c]; no tool is in [PATH]. *)
Definition env_of (c : packageParameter) : Env :=
  mkEnv (fun _ _ => inr c) "2025-01-15_14-30-45" (fun _ => None)
    (fun _ p => (mkCmdResult None "" "", p)) (fun _ => None).

Definition no_flags : Flags :=
  mkFlags "my_app" "application.yaml" false false false false "" false "".

(** The sources of the end-to-end scenario. *)
Definition sources : list (list string * node) :=
  [ (["work"; "application.yaml"], regular "name: Sample");
    (["work"; "app.jar"], regular "JAR");
    (["work"; "icon.icns"], regular "ICNS") ].

(** The program state once the layout of [Sample.app] is made. *)
Definition laid_out (c : packageParameter) (p : Proc) : State :=
  snd (CreateDirectoryStructure (BundleName c)
         (set_packageInfo (initial_State p) c)).


(** The payload is named with a directory in [exec_file]. *)
Definition jar_in_subdir : packageParameter := with_exec_file sample "dist/app.jar".
Definition jar_in_subdir_proc : Proc :=
  proc_of (sources ++ [ (["work"; "dist"], directory);
                        (["work"; "dist"; "app.jar"], regular "JAR") ]).

(** A bundle type of four characters with a signature of three. *)
Definition bundle_type : packageParameter := with_type_signature sample "BNDL" "abc".

(** A Java home with a file and a symbolic link to it. *)
Definition with_jdk : packageParameter := with_local_java sample "jdk".
Definition jdk_proc : Proc :=
  proc_of (sources ++ [ (["work"; "jdk"], directory);
                        (["work"; "jdk"; "release"], regular "JAVA_VERSION=17");
                        (["work"; "jdk"; "current"], link "release") ]).

(** A [Sample.app] with content is there before the run. *)
Definition old_bundle_proc : Proc :=
  proc_of (sources ++ [ (["work"; "Sample.app"], directory);
                        (["work"; "Sample.app"; "notes.txt"], regular "keep me") ]).

(** The payload does not exist. *)
Definition no_payload_proc : Proc :=
  proc_of [ (["work"; "application.yaml"], regular "name: Sample");
            (["work"; "icon.icns"], regular "ICNS") ].

End Scenario.

(** ** Package [config]

    The parameter store of config.go: a list of groups, each a list of
    key-value pairs.  The package variable [parameters] is the argument
    of the functions that read it.  Loading the YAML files into it
    ([loadYamlFile]) goes over Go maps, whose order of iteration is not
    fixed, and is not modelled. *)

Module config.
Import os.

Record keyValuePair := mkKeyValuePair { key : string; value : string }.

Record configParameters := mkConfigParameters {
  group : string;
  parameter : list keyValuePair
}.

(** The inner loop of [ChangeParameterStructure] over the pairs of the
    group named [groupName]: every pair is copied, with the new value when
    its key is [key] and the group is [group]; [parameterFound] is set
    then.  The result is the flag and the copied pairs. *)
Fixpoint change_pairs (group key value groupName : string)
  (pairs : list keyValuePair) (parameterFound : bool)
  : bool * list keyValuePair :=
  match pairs with
  | [] => (parameterFound, [])
  | parameter :: rest =>
      if String.eqb key (config.key parameter) && String.eqb groupName group then
        let '(found, keyValuePairs) :=
          change_pairs group key value groupName rest true in
        (found, mkKeyValuePair (config.key parameter) value :: keyValuePairs)
      else
        let '(found, keyValuePairs) :=
          change_pairs group key value groupName rest parameterFound in
        (found,
         mkKeyValuePair (config.key parameter) (config.value parameter)
           :: keyValuePairs)
  end.

(** The outer loop: [parameterFound] and [groupFound] are declared before
    it and never reset, so a key found in one group named [group] counts
    as found for the groups that follow.  The result is [groupFound] and
    the new groups. *)
Fixpoint change_groups (group key value : string)
  (parameters : list configParameters) (parameterFound groupFound : bool)
  : bool * list configParameters :=
  match parameters with
  | [] => (groupFound, [])
  | parameterGroup :: rest =>
      let groupFound :=
        if String.eqb (config.group parameterGroup) group then true
        else groupFound in
      let '(parameterFound, keyValuePairs) :=
        change_pairs group key value (config.group parameterGroup)
          (parameter parameterGroup) parameterFound in
      let keyValuePairs :=
        if negb parameterFound && String.eqb (config.group parameterGroup) group
        then keyValuePairs ++ [mkKeyValuePair key value]
        else keyValuePairs in
      let '(groupFound, newParameters) :=
        change_groups group key value rest parameterFound groupFound in
      (groupFound,
       mkConfigParameters (config.group parameterGroup) keyValuePairs
         :: newParameters)
  end.

Definition ChangeParameterStructure (group key value : string)
  (parameters : list configParameters)
  : list configParameters * option error :=
  let '(groupFound, newParameters) :=
    change_groups group key value parameters false false in
  (if negb groupFound
   then newParameters
          ++ [mkConfigParameters group [mkKeyValuePair key value]]
   else newParameters,
   None).

(** The loops of [GetStringByGroupAndElement]: the first pair, in the
    order of the groups and of their pairs, whose group is [groupName] and
    whose key is [elementName]. *)
Fixpoint search_pairs (groupName elementName group : string)
  (pairs : list keyValuePair) : option string :=
  match pairs with
  | [] => None
  | parameter :: rest =>
      if String.eqb group groupName
         && String.eqb (config.key parameter) elementName
      then Some (config.value parameter)
      else search_pairs groupName elementName group rest
  end.

Fixpoint search_groups (groupName elementName : string)
  (parameters : list configParameters) : option string :=
  match parameters with
  | [] => None
  | parameterGroup :: rest =>
      match search_pairs groupName elementName (config.group parameterGroup)
              (parameter parameterGroup) with
      | Some v => Some v
      | None => search_groups groupName elementName rest
      end
  end.

Definition GetStringByGroupAndElement (parameters : list configParameters)
  (groupName elementName : string) : string * option error :=
  match search_groups groupName elementName parameters with
  | Some v => (v, None)
  | None => ("", Some (errorString "value not found in configuration"))
  end.

Definition setDefaultParameters : list configParameters :=
  let networkKeyValue := [mkKeyValuePair "port" "8080"] in
  let dbKeyValue :=
    [mkKeyValuePair "port" "3306"; mkKeyValuePair "host" "localhost";
     mkKeyValuePair "user" "postgres"; mkKeyValuePair "password" "nopass";
     mkKeyValuePair "dbname" "authentikator"] in
  [mkConfigParameters "Network" networkKeyValue;
   mkConfigParameters "DB" dbKeyValue].

End config.

(** ** More vocabulary *)

Module SpecMore.
Import GoStrings filepath os Go application main Spec.

(** The node of the directories [createDir] makes. *)
Definition layout_dir (p : Proc) : node :=
  mkNode KDir (N.ldiff 493 (umask p)) (euid p) (egid p).




Definition set_applicationNameFlag (flags : Flags) (name : string) : Flags :=
  mkFlags name (packageFileFlag flags) (cleanFlag flags)
    (signFlag flags) (deleteFlag flags) (notariseFlag flags)
    (appleIDProfileFlag flags) (silentFlag flags) (logDirFlag flags).

(** Some pair of a group named [g] has the key [k]. *)
Definition has_setting (g k : string) (ps : list config.configParameters) : Prop :=
  exists G q, In G ps /\ config.group G = g
              /\ In q (config.parameter G) /\ config.key q = k.

Definition named (g : string) (G : config.configParameters) : bool :=
  String.eqb (config.group G) g.

(** [m'] is [m] with nodes [d] added at places where [m] has nothing. *)
Definition only_adds (d : node) (m m' : gmap (list string) node) : Prop :=
  m ⊆ m' /\ forall k n, m' !! k = Some n -> m !! k = None -> n = d.

(** The package-level variables other than the process. *)
Definition variables (s : State)
  : packageParameter * (string * string * string * string * string * string) :=
  (packageInfo s,
   (applicationDirectory s, contentsDir s, macosDir s, resourcesDir s,
    javaDir s, runtimeDir s)).

Definition set_deleteFlag (flags : Flags) (b : bool) : Flags :=
  mkFlags (applicationNameFlag flags) (packageFileFlag flags) (cleanFlag flags)
    (signFlag flags) b (notariseFlag flags)
    (appleIDProfileFlag flags) (silentFlag flags) (logDirFlag flags).

(** The bundle root is not set, or it is the name of the description
    file followed by [.app]. *)
Definition root_from_descriptor (s : State) : Prop :=
  applicationDirectory s = "" \/
  applicationDirectory s = GetBundleName s +:+ ".app".

(** The states of the end-to-end scenario after the metadata and after
    the payload are staged. *)
Definition with_metadata (c : packageParameter) (p : Proc) : State :=
  snd (CreatePlist (Scenario.laid_out c p)).


End SpecMore.

(** ** Paths made of file names *)

Module PathFacts.
Import GoStrings filepath os Go Spec.

Lemma plain_app (a b : string) :
  plain (a +:+ b) = plain a && plain b.
Proof.
  induction a as [|c a IH]; simpl; [reflexivity|].
  rewrite IH. destruct (Ascii.eqb c "/"); reflexivity.
Qed.

Lemma split_slash_plain (s : string) :
  plain s = true -> split_slash s = [s].
Proof.
  induction s as [|c s IH]; simpl; [reflexivity|].
  intros [Hc Hs]%andb_prop.
  destruct (Ascii.eqb c "/"); [discriminate|].
  rewrite (IH Hs). reflexivity.
Qed.

Lemma split_slash_app (a b : string) :
  plain a = true -> split_slash (a +:+ "/" +:+ b) = a :: split_slash b.
Proof.
  induction a as [|c a IH]; simpl; [reflexivity|].
  intros [Hc Ha]%andb_prop.
  destruct (Ascii.eqb c "/"); [discriminate|].
  rewrite (IH Ha). reflexivity.
Qed.

Lemma is_name_plain (c : string) : is_name c = true -> plain c = true.
Proof.
  unfold is_name. intros H.
  repeat (apply andb_prop in H; destruct H as [H ?]). exact H.
Qed.

Lemma is_name_not_special (c : string) :
  is_name c = true ->
  String.eqb c "" = false /\ String.eqb c "." = false /\ String.eqb c ".." = false.
Proof.
  unfold is_name. intros H.
  repeat (apply andb_prop in H; destruct H as [H ?]).
  repeat split; apply negb_true_iff; assumption.
Qed.

Lemma is_name_not_rooted (c : string) : is_name c = true -> rooted c = false.
Proof.
  intros H. pose proof (is_name_plain _ H) as Hp.
  destruct c as [|a c]; simpl in *; [reflexivity|].
  apply andb_prop in Hp. destruct Hp as [Hp _].
  apply negb_true_iff in Hp. exact Hp.
Qed.

Lemma split_join (cs : list string) :
  Forall (fun c => is_name c = true) cs -> cs <> [] ->
  split_slash (join_slash cs) = cs.
Proof.
  induction 1 as [|c cs Hc Hcs IH]; [congruence|]. intros _.
  destruct cs as [|c' cs]; simpl.
  - apply split_slash_plain, is_name_plain, Hc.
  - rewrite split_slash_app by (apply is_name_plain, Hc).
    f_equal. apply IH. discriminate.
Qed.









Lemma path_names_join (cs : list string) :
  Forall (fun c => is_name c = true) cs -> cs <> [] ->
  path_names (join_slash cs) = cs.
Proof.
  intros H Hne. unfold path_names. rewrite split_join by assumption.
  clear Hne. induction H as [|c cs Hc Hcs IH]; [reflexivity|].
  simpl. destruct (is_name_not_special _ Hc) as (-> & _). simpl.
  rewrite IH. reflexivity.
Qed.

Lemma length_append (a b : string) :
  String.length (a +:+ b) = String.length a + String.length b.
Proof. induction a as [|c a IH]; simpl; [reflexivity|]. rewrite IH. reflexivity. Qed.

(** The name of the bundle root is a file name when the application name
    has no separator. *)
Lemma is_name_app (name : string) :
  plain name = true -> is_name (name +:+ ".app") = true.
Proof.
  intros Hp. unfold is_name. rewrite plain_app, Hp. simpl.
  assert (Hlen : 4 <= String.length (name +:+ ".app")).
  { rewrite length_append. simpl. lia. }
  destruct (name +:+ ".app") as [|a [|b [|c r]]]; simpl in Hlen; try lia.
  replace (String.eqb (String a (String b (String c r))) "") with false by reflexivity.
  replace (String.eqb (String a (String b (String c r))) ".") with false
    by (simpl; destruct (Ascii.eqb a "."); reflexivity).
  replace (String.eqb (String a (String b (String c r))) "..") with false
    by (simpl; destruct (Ascii.eqb a "."), (Ascii.eqb b "."); reflexivity).
  reflexivity.
Qed.

End PathFacts.

(** ** The file-system calls on paths of file names *)

Module FsFacts.
Import GoStrings filepath os Go application Spec PathFacts.

Lemma set_fs_id (p : Proc) : set_fs p (fs p) = p.
Proof. destruct p; reflexivity. Qed.

Lemma plain_substring (s : string) (n m : nat) :
  plain s = true -> plain (substring n m s) = true.
Proof.
  revert n m. induction s as [|c s IH]; intros n m Hp.
  - destruct n, m; reflexivity.
  - simpl in Hp. apply andb_prop in Hp. destruct Hp as [Hc Hs].
    destruct n as [|n]; destruct m as [|m]; simpl; auto.
    rewrite Hc. apply IH. exact Hs.
Qed.

Lemma endsWithDot_name (c : string) : is_name c = true -> endsWithDot c = false.
Proof.
  intros Hc. unfold endsWithDot.
  destruct (is_name_not_special _ Hc) as (_ & -> & _). simpl.
  unfold HasSuffix. apply andb_false_iff. right.
  apply String.eqb_neq. intros Heq.
  pose proof (plain_substring c (String.length c - String.length "/.")
                (String.length "/.") (is_name_plain _ Hc)) as Hp.
  rewrite Heq in Hp. discriminate.
Qed.

(** Without following it, a file name leads to its place in the directory. *)
Lemma walk_name_nofollow (fuel : nat) (m : gmap (list string) node)
  (cur : key) (c : string) :
  is_name c = true -> walk fuel m false cur [c] = inr (cur ++ [c]).
Proof.
  intros Hc. destruct (is_name_not_special _ Hc) as (He & Hd & Hdd).
  destruct fuel; cbn [walk walk_names]; rewrite He, Hd, Hdd; simpl;
    (destruct (m !! (cur ++ [c])) as [n|]; [destruct (nkind n)|]; reflexivity).
Qed.

(** A resolution that succeeds is not disturbed by a regular file put at
    a place where there was nothing or a regular file. *)
Lemma walk_names_insert_file (m : gmap (list string) node) (k : key) (n' : node)
  (follow follow' : key -> list string -> Errno + key) (fl : bool) :
  (m !! k = None \/ exists n c, m !! k = Some n /\ nkind n = KFile c) ->
  (exists c', nkind n' = KFile c') ->
  (forall cur todo k', follow cur todo = inr k' -> follow' cur todo = inr k') ->
  forall todo cur k',
    walk_names follow m fl cur todo = inr k' ->
    walk_names follow' (<[k := n']> m) fl cur todo = inr k'.
Proof.
  intros Hk (c' & Hn') Hf todo.
  induction todo as [|c rest IH]; intros cur k'; cbn [walk_names]; [trivial|].
  destruct (String.eqb c "" || String.eqb c "."); [apply IH|].
  destruct (String.eqb c ".."); [apply IH|].
  destruct (decide (k = cur ++ [c])) as [->|Hne].
  - rewrite lookup_insert_eq, Hn'.
    destruct (m !! (cur ++ [c])) as [n|] eqn:E.
    + destruct Hk as [Hk|(n0 & c0 & Hk & Hc0)]; [discriminate Hk|].
      injection Hk as <-. rewrite Hc0. destruct (is_nil rest); trivial.
    + destruct (is_nil rest); [trivial|discriminate].
  - rewrite lookup_insert_ne by exact Hne.
    destruct (m !! (cur ++ [c])) as [n|]; [|trivial].
    destruct (nkind n); [apply IH|trivial|].
    destruct (is_nil rest && negb fl); [trivial|apply Hf].
Qed.

Lemma walk_insert_file (m : gmap (list string) node) (k : key) (n' : node)
  (fl : bool) :
  (m !! k = None \/ exists n c, m !! k = Some n /\ nkind n = KFile c) ->
  (exists c', nkind n' = KFile c') ->
  forall fuel cur todo k',
    walk fuel m fl cur todo = inr k' ->
    walk fuel (<[k := n']> m) fl cur todo = inr k'.
Proof.
  intros Hk Hn'. induction fuel as [|f IH]; intros cur todo k'; simpl;
    apply walk_names_insert_file; (assumption || discriminate || exact IH).
Qed.

Lemma resolve_insert_file (p p' : Proc) (k k' : key) (n' : node) (fl : bool)
  (path : string) :
  cwd p' = cwd p ->
  fs p' = <[k := n']> (fs p) ->
  (fs p !! k = None \/ exists n c, fs p !! k = Some n /\ nkind n = KFile c) ->
  (exists c', nkind n' = KFile c') ->
  resolve p fl path = inr k' ->
  resolve p' fl path = inr k'.
Proof.
  intros Hcwd Hfs Hk Hn'. unfold resolve. rewrite Hcwd, Hfs.
  destruct (String.eqb path ""); [discriminate|].
  apply walk_insert_file; assumption.
Qed.

Lemma resolve_name_nofollow (p : Proc) (c : string) :
  is_name c = true -> resolve p false c = inr (cwd p ++ [c]).
Proof.
  intros Hc. unfold resolve.
  destruct (is_name_not_special _ Hc) as (-> & _).
  rewrite (is_name_not_rooted _ Hc).
  change c with (join_slash [c]) at 1.
  rewrite path_names_join by (repeat constructor; assumption || discriminate).
  apply walk_name_nofollow, Hc.
Qed.

(** [RemoveAll] of a file name leaves nothing at its place or below. *)
Lemma RemoveAll_name (p : Proc) (c : string) :
  is_name c = true ->
  RemoveAll c p =
    (None, set_fs p (filter (fun kv => ¬ (cwd p ++ [c]) `prefix_of` kv.1) (fs p))).
Proof.
  intros Hc. unfold RemoveAll.
  destruct (is_name_not_special _ Hc) as (-> & _).
  rewrite (endsWithDot_name _ Hc), (resolve_name_nofollow _ _ Hc). reflexivity.
Qed.

Lemma lookup_filter_below (m : gmap (list string) node) (k i : key) :
  k `prefix_of` i -> filter (fun kv => ¬ k `prefix_of` kv.1) m !! i = None.
Proof.
  intros Hpre. apply map_lookup_filter_None. right. intros x _ Hn. apply Hn, Hpre.
Qed.



End FsFacts.

(** ** The layout of the bundle *)

Module LayoutFacts.
Import GoStrings filepath os Go application Spec PathFacts FsFacts.

Lemma set_fs_set_fs (p : Proc) (m m' : gmap (list string) node) :
  set_fs (set_fs p m) m' = set_fs p m'.
Proof. reflexivity. Qed.





End LayoutFacts.

(** ** The stages of the pipeline *)

Module StageFacts.
Import GoStrings filepath os Go application main Spec PathFacts FsFacts LayoutFacts.


Lemma set_proc_id (s : State) : set_proc s (proc s) = s.
Proof. destruct s; reflexivity. Qed.

(** A successful [Create] leaves an empty regular file at the place the
    path leads to, where there was no node or a regular file. *)
Lemma Create_inr (path : string) (p p1 : Proc) (k : File) :
  Create path p = (inr k, p1) ->
  resolve p true path = inr k /\
  (fs p !! k = None \/ exists n c, fs p !! k = Some n /\ nkind n = KFile c) /\
  exists mode uid gid,
    p1 = set_fs p (<[k := mkNode (KFile "") mode uid gid]> (fs p)).
Proof.
  unfold Create. destruct (resolve p true path) as [e|k'] eqn:Hres; [discriminate|].
  destruct k' as [|a k'].
  - simpl. discriminate.
  - change (lookup_node (fs p) (a :: k')) with (fs p !! (a :: k')). destruct (fs p !! (a :: k')) as [n|] eqn:Hl.
    + destruct (nkind n) eqn:Hk; try discriminate.
      intros [= <- <-]. split; [reflexivity|]. split; [right; eauto|]. eauto.
    + intros [= <- <-]. split; [reflexivity|]. split; [left; exact Hl|]. eauto.
Qed.

Lemma sys_inv {A : Type} (f : Proc -> A * Proc) (s s1 : State) (a : A) :
  sys f s = (a, s1) -> exists p1, f (proc s) = (a, p1) /\ s1 = set_proc s p1.
Proof.
  unfold sys. destruct (f (proc s)) as [a' p1]. intros [= <- <-]. eauto.
Qed.

(** What [CreatePkgInfo] leaves in the file it could create. *)
Lemma CreatePkgInfo_written (s s1 : State) (file : File) :
  sys (Create (Join (contentsDir s) "PkgInfo")) s = (inr file, s1) ->
  exists (s2 : State) (n : node),
    CreatePkgInfo s = (None, s2) /\
    fs (proc s2) !! file = Some n /\
    nkind n =
      KFile ((if negb (Nat.eqb (String.length (GetPackageType s)) 4)
              then "APPL" else GetPackageType s)
             +:+ (if negb (Nat.eqb (String.length (GetBundleSignature s)) 4)
                  then "????" else GetBundleSignature s)).
Proof.
  intros H. unfold CreatePkgInfo. rewrite H.
  apply sys_inv in H. destruct H as (p1 & Hc & ->).
  apply Create_inr in Hc. destruct Hc as (_ & _ & mode & uid & gid & ->).
  eexists _, _. split; [reflexivity|].
  cbn [proc set_proc set_fs fs sys WriteString]. 
  rewrite lookup_alter_eq, lookup_insert_eq. split; reflexivity.
Qed.

Lemma eight_bytes (t g : string) :
  String.length
    ((if negb (Nat.eqb (String.length t) 4) then "APPL" else t)
     +:+ (if negb (Nat.eqb (String.length g) 4) then "????" else g)) = 8.
Proof.
  rewrite length_append.
  destruct (Nat.eqb (String.length t) 4) eqn:Ht;
    destruct (Nat.eqb (String.length g) 4) eqn:Hg; simpl;
    try apply Nat.eqb_eq in Ht; try apply Nat.eqb_eq in Hg; lia.
Qed.



Lemma mandatory_missing_true (s : State) :
  mandatory_field_empty s -> mandatory_missing (plistStructure_of s) = true.
Proof.
  unfold mandatory_field_empty, mandatory_missing, plistStructure_of; simpl.
  intros H. repeat rewrite orb_true_iff. rewrite !String.eqb_eq. tauto.
Qed.

(** [CopyExecutable] returns [nil] whatever the strategy returned. *)
Lemma CopyExecutable_returns_nil (s : State) : fst (CopyExecutable s) = None.
Proof.
  unfold CopyExecutable.
  destruct (HasSuffix (GetExecutableName s) "jar");
    match goal with |- context [let '(_, _) := ?c in _] => destruct c end;
    reflexivity.
Qed.

End StageFacts.

(** ** The properties the specification states *)

Module Claims.
Import GoStrings filepath os Go application main Spec Scenario.
Import PathFacts FsFacts LayoutFacts StageFacts.



(** *** C7: layout followed by teardown *)




(** The application name is joined to [.app] as it is: with a
    separator in it, [MkdirAll] also makes the directories before the
    bundle root, and the teardown, which removes the root only, leaves
    them. *)
Lemma teardown_leaves_made_parent :
  fs (proc_of sources) !! ["work"; "out"] = None /\
  fst (CreateDirectoryStructure "out/Sample" (initial_State (proc_of sources))) = None /\
  fs (proc (snd (DeleteAll (snd (CreateDirectoryStructure "out/Sample"
                                   (initial_State (proc_of sources)))))))
    !! ["work"; "out"] = Some (mkNode KDir 493 501 20) /\
  fs (proc (snd (DeleteAll (snd (CreateDirectoryStructure "out/Sample"
                                   (initial_State (proc_of sources)))))))
    !! ["work"; "out"; "Sample.app"] = None.
Proof.
  split; [vm_compute; reflexivity|].
  split; [vm_compute; reflexivity|].
  split; vm_compute; reflexivity.
Qed.

(** *** C3: the content of PkgInfo *)

(** C3, as stated, fails: with the type [BNDL], of length four, and a
    signature of length three, the content written is [BNDL????], not
    [APPL????]: the two halves are replaced one independently of the
    other. *)
Lemma C3_type_of_four_is_kept :
  let s := laid_out bundle_type (proc_of sources) in
  String.length (GetBundleSignature s) <> 4 /\
  fst (CreatePkgInfo s) = None /\
  file_content "Sample.app/Contents/PkgInfo" (proc (snd (CreatePkgInfo s)))
    = Some "BNDL????" /\
  "BNDL????" <> "APPL????".
Proof.
  cbv zeta.
  split; [vm_compute; discriminate|].
  split; [vm_compute; reflexivity|].
  split; [vm_compute; reflexivity|discriminate].
Qed.

(** C3, amended: whenever the file [Contents/PkgInfo] can be created,
    [CreatePkgInfo] succeeds and leaves in it exactly 8 bytes, a type of 4
    bytes followed by a signature of 4 bytes; the type is the configured
    one ([GetPackageType]) if its length is 4 and [APPL] otherwise, the
    signature is the configured one if its length is 4 and [????]
    otherwise, each chosen independently; when neither has length 4 the
    content is [APPL????]. *)
Theorem C3_PkgInfo_eight_bytes (s s1 : State) (file : File) :
  sys (Create (Join (contentsDir s) "PkgInfo")) s = (inr file, s1) ->
  exists (s2 : State) (n : node) (t g : string),
    CreatePkgInfo s = (None, s2) /\
    fs (proc s2) !! file = Some n /\ nkind n = KFile (t +:+ g) /\
    String.length (t +:+ g) = 8 /\ String.length t = 4 /\ String.length g = 4 /\
    (String.length (GetPackageType s) = 4 -> t = GetPackageType s) /\
    (String.length (GetPackageType s) <> 4 -> t = "APPL") /\
    (String.length (GetBundleSignature s) = 4 -> g = GetBundleSignature s) /\
    (String.length (GetBundleSignature s) <> 4 -> g = "????") /\
    (String.length (GetPackageType s) <> 4 ->
     String.length (GetBundleSignature s) <> 4 -> t +:+ g = "APPL????").
Proof.
  intros H. destruct (CreatePkgInfo_written s s1 file H) as (s2 & n & E & Hl & Hk).
  exists s2, n. eexists _, _. split; [exact E|]. split; [exact Hl|].
  split; [exact Hk|]. split; [apply eight_bytes|].
  clear E Hl Hk.
  destruct (Nat.eqb_spec (String.length (GetPackageType s)) 4) as [Ht|Ht];
    destruct (Nat.eqb_spec (String.length (GetBundleSignature s)) 4) as [Hg|Hg];
    simpl negb; cbv iota;
    repeat split; intros; try reflexivity; try assumption; try contradiction.
Qed.

Lemma C3_PkgInfo_eight_bytes_witness :
  exists (s2 : State) (n : node) (t g : string),
    CreatePkgInfo (laid_out bundle_type (proc_of sources)) = (None, s2) /\
    fs (proc s2) !! ["work"; "Sample.app"; "Contents"; "PkgInfo"] = Some n /\
    nkind n = KFile (t +:+ g) /\
    String.length (t +:+ g) = 8 /\ String.length t = 4 /\ String.length g = 4 /\
    (String.length (GetPackageType (laid_out bundle_type (proc_of sources))) = 4 ->
     t = GetPackageType (laid_out bundle_type (proc_of sources))) /\
    (String.length (GetPackageType (laid_out bundle_type (proc_of sources))) <> 4 ->
     t = "APPL") /\
    (String.length (GetBundleSignature (laid_out bundle_type (proc_of sources))) = 4 ->
     g = GetBundleSignature (laid_out bundle_type (proc_of sources))) /\
    (String.length (GetBundleSignature (laid_out bundle_type (proc_of sources))) <> 4 ->
     g = "????") /\
    (String.length (GetPackageType (laid_out bundle_type (proc_of sources))) <> 4 ->
     String.length (GetBundleSignature (laid_out bundle_type (proc_of sources))) <> 4 ->
     t +:+ g = "APPL????").
Proof.
  apply (C3_PkgInfo_eight_bytes (laid_out bundle_type (proc_of sources))
           (snd (sys (Create "Sample.app/Contents/PkgInfo")
                   (laid_out bundle_type (proc_of sources))))).
  vm_compute. reflexivity.
Defined.

(** *** C4: the validation of the property list *)

(** C4: when one of the six mandatory fields is empty, [CreatePlist]
    returns an error and stops where [CreatePkgInfo] stopped: no
    Info.plist is created or written.  When [CreatePkgInfo] succeeded the
    error is the validation error, and the PkgInfo file, written before the
    validation, is left on disk with its eight bytes. *)
Theorem C4_validation_after_PkgInfo (s : State) :
  mandatory_field_empty s ->
  fst (CreatePlist s) <> None /\
  snd (CreatePlist s) = snd (CreatePkgInfo s) /\
  (forall s1, CreatePkgInfo s = (None, s1) ->
     CreatePlist s = (Some (errorString "Info.plist <mandatory fields missing>"), s1)) /\
  (forall file s0,
     sys (Create (Join (contentsDir s) "PkgInfo")) s = (inr file, s0) ->
     exists n c,
       fst (CreatePlist s) = Some (errorString "Info.plist <mandatory fields missing>") /\
       fs (proc (snd (CreatePlist s))) !! file = Some n /\
       nkind n = KFile c /\ String.length c = 8).
Proof.
  intros Hm. apply mandatory_missing_true in Hm.
  assert (Hstep : forall e s1, CreatePkgInfo s = (e, s1) ->
            CreatePlist s =
              (match e with
               | Some err => Some err
               | None => Some (errorString "Info.plist <mandatory fields missing>")
               end, s1)).
  { intros e s1 E. unfold CreatePlist. rewrite E, Hm. destruct e; reflexivity. }
  split; [|split; [|split]].
  - destruct (CreatePkgInfo s) as [e s1] eqn:E. rewrite (Hstep e s1 eq_refl).
    destruct e; discriminate.
  - destruct (CreatePkgInfo s) as [e s1] eqn:E. rewrite (Hstep e s1 eq_refl).
    reflexivity.
  - intros s1 E. apply (Hstep None s1 E).
  - intros file s0 Hc.
    destruct (CreatePkgInfo_written s s0 file Hc) as (s2 & n & E & Hl & Hk).
    rewrite (Hstep None s2 E). eexists n, _.
    split; [reflexivity|]. split; [exact Hl|]. split; [exact Hk|].
    apply eight_bytes.
Qed.

Lemma C4_validation_after_PkgInfo_witness :
  fst (CreatePlist (laid_out (with_identifier sample "") (proc_of sources))) <> None /\
  snd (CreatePlist (laid_out (with_identifier sample "") (proc_of sources)))
    = snd (CreatePkgInfo (laid_out (with_identifier sample "") (proc_of sources))) /\
  (forall s1,
     CreatePkgInfo (laid_out (with_identifier sample "") (proc_of sources)) = (None, s1) ->
     CreatePlist (laid_out (with_identifier sample "") (proc_of sources))
       = (Some (errorString "Info.plist <mandatory fields missing>"), s1)) /\
  (forall file s0,
     sys (Create (Join (contentsDir (laid_out (with_identifier sample "") (proc_of sources)))
                    "PkgInfo"))
       (laid_out (with_identifier sample "") (proc_of sources)) = (inr file, s0) ->
     exists n c,
       fst (CreatePlist (laid_out (with_identifier sample "") (proc_of sources)))
         = Some (errorString "Info.plist <mandatory fields missing>") /\
       fs (proc (snd (CreatePlist (laid_out (with_identifier sample "") (proc_of sources)))))
         !! file = Some n /\
       nkind n = KFile c /\ String.length c = 8).
Proof.
  apply (C4_validation_after_PkgInfo
           (laid_out (with_identifier sample "") (proc_of sources))).
  left. vm_compute. reflexivity.
Defined.

(** With an empty identifier, in the end-to-end scenario: the validation
    error, no Info.plist, and the PkgInfo file on disk. *)
Lemma empty_identifier_run :
  fst (CreatePlist (laid_out (with_identifier sample "") (proc_of sources)))
    = Some (errorString "Info.plist <mandatory fields missing>") /\
  Stat "Sample.app/Contents/Info.plist"
    (proc (snd (CreatePlist (laid_out (with_identifier sample "") (proc_of sources)))))
    = inl (PathError "stat" "Sample.app/Contents/Info.plist" ENOENT) /\
  file_content "Sample.app/Contents/PkgInfo"
    (proc (snd (CreatePlist (laid_out (with_identifier sample "") (proc_of sources)))))
    = Some "APPL????".
Proof.
  split; [vm_compute; reflexivity|]. split; vm_compute; reflexivity.
Qed.

(** *** C10: the package type in the two metadata files *)



(** Both files on disk after [CreatePlist] in the end-to-end scenario,
    whose descriptor has no package type. *)
Lemma sample_metadata_on_disk :
  fst (CreatePlist (laid_out sample (proc_of sources))) = None /\
  file_content "Sample.app/Contents/Info.plist"
    (proc (snd (CreatePlist (laid_out sample (proc_of sources)))))
    = Some (render_plistTemplate (plistStructure_of (laid_out sample (proc_of sources)))) /\
  InfoPlistData.PackageType (plistStructure_of (laid_out sample (proc_of sources)))
    = "APP" /\
  file_content "Sample.app/Contents/PkgInfo"
    (proc (snd (CreatePlist (laid_out sample (proc_of sources))))) = Some "APPL????".
Proof.
  split; [vm_compute; reflexivity|].
  split; [vm_compute; reflexivity|].
  split; vm_compute; reflexivity.
Qed.

(** *** C2: the error of payload staging *)

(** C2 fails on the code.  With [exec_file: dist/app.jar] the JAR
    strategy fails (the copy cannot create
    [Sample.app/Contents/MacOS/dist/app.jar], whose directory does not
    exist), yet [CopyExecutable] returns [nil], and the run ends with
    status 0 and a bundle without payload and launcher. *)
Theorem C2_CopyExecutable_drops_the_error :
  let s := snd (CreatePlist (laid_out jar_in_subdir jar_in_subdir_proc)) in
  fst (copyJarExec "" "dist/app.jar" s)
    = Some (PathError "open" "Sample.app/Contents/MacOS/dist/app.jar" ENOENT) /\
  fst (CopyExecutable s) = None /\
  fst (main no_flags (env_of jar_in_subdir) jar_in_subdir_proc) = Ret tt /\
  file_content "Sample.app/Contents/MacOS/dist/app.jar"
    (proc (snd (main no_flags (env_of jar_in_subdir) jar_in_subdir_proc))) = None /\
  file_content "Sample.app/Contents/MacOS/launch"
    (proc (snd (main no_flags (env_of jar_in_subdir) jar_in_subdir_proc))) = None.
Proof.
  cbv zeta.
  split; [vm_compute; reflexivity|].
  split; [vm_compute; reflexivity|].
  split; [vm_compute; reflexivity|].
  split; vm_compute; reflexivity.
Qed.

(** *** C9: the clean flag *)

Lemma sys_snd {A : Type} (f : Proc -> A * Proc) (s : State) :
  snd (sys f s) = set_proc s (snd (f (proc s))).
Proof. unfold sys. destruct (f (proc s)). reflexivity. Qed.

Lemma main_setup_keeps_variables (flags : Flags) (env : Env) (s s' : State)
  (r : ret unit) :
  main_setup flags env s = (r, s') ->
  applicationDirectory s' = applicationDirectory s.
Proof.
  unfold main_setup, exit_or, Read.
  destruct (Open _ (proc s)) as [e|file]; [intros [= _ <-]; reflexivity|].
  destruct (io_ReadAll file (proc s)) as [e|data]; [intros [= _ <-]; reflexivity|].
  destruct (yaml_Unmarshal env data (packageInfo s)) as [e|c];
    [intros [= _ <-]; reflexivity|].
  destruct (ValidateConfiguration (set_packageInfo s c));
    [intros [= _ <-]; reflexivity|].
  destruct (negb (String.eqb (logDirFlag flags) "")); intros [= _ <-];
    [rewrite sys_snd|]; reflexivity.
Qed.

Lemma main_setup_set_cleanFlag (flags : Flags) (env : Env) (b : bool) (s : State) :
  main_setup (set_cleanFlag flags b) env s = main_setup flags env s.
Proof. reflexivity. Qed.

Lemma DeleteAll_before_layout (s : State) :
  applicationDirectory s = "" -> DeleteAll s = (None, s).
Proof.
  intros H. unfold DeleteAll, sys. rewrite H. simpl. rewrite set_proc_id. reflexivity.
Qed.

(** C9: at the test of the clean flag the bundle root variable is still
    the empty string, so [DeleteAll] calls [os.RemoveAll] on the empty
    path: it returns [nil] and leaves the state, hence every bundle on
    disk, as it is; the run goes on as a run without the flag. *)
Theorem C9_clean_removes_nothing (flags : Flags) (env : Env) (p : Proc) (s : State) :
  cleanFlag flags = true ->
  main_setup flags env (initial_State p) = (Ret tt, s) ->
  applicationDirectory s = "" /\
  DeleteAll s = (None, s) /\
  main flags env p = main (set_cleanFlag flags false) env p.
Proof.
  intros Hclean Hsetup.
  assert (Hdir : applicationDirectory s = "").
  { rewrite (main_setup_keeps_variables _ _ _ _ _ Hsetup). reflexivity. }
  split; [exact Hdir|]. split; [apply DeleteAll_before_layout, Hdir|].
  unfold main. rewrite main_setup_set_cleanFlag, Hsetup. unfold exit_or.
  unfold main_build. rewrite Hclean. cbn [cleanFlag set_cleanFlag].
  rewrite (DeleteAll_before_layout s Hdir). reflexivity.
Qed.

Lemma C9_clean_removes_nothing_witness :
  applicationDirectory
    (snd (main_setup (set_cleanFlag no_flags true) (env_of sample)
            (initial_State old_bundle_proc))) = "" /\
  DeleteAll (snd (main_setup (set_cleanFlag no_flags true) (env_of sample)
                    (initial_State old_bundle_proc)))
    = (None, snd (main_setup (set_cleanFlag no_flags true) (env_of sample)
                    (initial_State old_bundle_proc))) /\
  main (set_cleanFlag no_flags true) (env_of sample) old_bundle_proc
    = main (set_cleanFlag (set_cleanFlag no_flags true) false) (env_of sample)
        old_bundle_proc.
Proof.
  apply (C9_clean_removes_nothing (set_cleanFlag no_flags true) (env_of sample)
           old_bundle_proc).
  - reflexivity.
  - vm_compute. reflexivity.
Defined.

(** *** C8: validation before the layout *)




(** The payload of the scenario does not exist, and the run ends before
    any directory is made. *)
Lemma missing_payload_run :
  IsNotExist (err_of (Stat "app.jar" no_payload_proc)) = true /\
  main no_flags (env_of sample) no_payload_proc
    = (Exit 1, set_packageInfo (initial_State no_payload_proc) sample).
Proof. split; vm_compute; reflexivity. Qed.

(** *** C1: what is removed when a stage fails *)




(** After [DeleteAll] nothing is left at the bundle root or below, when
    the root is a file name. *)
Lemma DeleteAll_leaves_nothing (s : State) :
  is_name (applicationDirectory s) = true ->
  cwd (proc (snd (DeleteAll s))) = cwd (proc s) /\
  forall i, (cwd (proc s) ++ [applicationDirectory s]) `prefix_of` i ->
            fs (proc (snd (DeleteAll s))) !! i = None.
Proof.
  intros Hr. unfold DeleteAll. rewrite sys_snd, (RemoveAll_name _ _ Hr).
  split; [reflexivity|]. intros i Hi. apply lookup_filter_below, Hi.
Qed.







(** *** C6: the JAR strategy *)

(** The first step of the JAR strategy: when the copy of the Java home
    fails, [copyJarExec] returns that error in the state the copy left. *)
Lemma copyJarExec_stops_at_runtime_failure (execPath execFile : string)
  (s s1 : State) (e : error) :
  GetUseLocalJava s = true ->
  sys (fileManagement.CopyDirectory (GetJavaHomeDirectory s)
         (Join (javaDir s) "runtime")) s = (Some e, s1) ->
  copyJarExec execPath execFile s = (Some e, s1).
Proof.
  intros Hj Hc. unfold copyJarExec. rewrite Hj, Hc. reflexivity.
Qed.

(** The launcher of the end-to-end scenario is the system template, with
    mode 0755, next to the copied JAR. *)
Lemma system_java_launcher :
  file_content "Sample.app/Contents/MacOS/launch"
    (proc (snd (main no_flags (env_of sample) (proc_of sources))))
    = Some (launcher_system_java "app.jar") /\
  file_mode "Sample.app/Contents/MacOS/launch"
    (proc (snd (main no_flags (env_of sample) (proc_of sources)))) = Some 493%N /\
  file_content "Sample.app/Contents/MacOS/app.jar"
    (proc (snd (main no_flags (env_of sample) (proc_of sources)))) = Some "JAR".
Proof.
  split; [vm_compute; reflexivity|]. split; vm_compute; reflexivity.
Qed.

(** C6 fails on the code where it says that symbolic links are recreated
    as links.  [CopyDirectory] asks [os.Stat], which follows links, for the
    kind of each entry, so the case for links is never taken: the link
    [jdk/current] to the file [release] arrives in the bundle as a regular
    file with the content of [release] and the mode of a new file.  The
    other steps are taken in order: the JAR is copied, and the launcher is
    the template of the bundled runtime with mode 0755. *)
Theorem C6_link_copied_as_file :
  let s := snd (CreatePlist (laid_out with_jdk jdk_proc)) in
  is_symlink "jdk/current" (proc s) = true /\
  fst (copyJarExec "" "app.jar" s) = None /\
  is_symlink "Sample.app/Contents/Java/runtime/current"
    (proc (snd (copyJarExec "" "app.jar" s))) = false /\
  Lstat "Sample.app/Contents/Java/runtime/current"
    (proc (snd (copyJarExec "" "app.jar" s)))
    = inr (mkNode (KFile "JAVA_VERSION=17") 420 501 20) /\
  file_content "Sample.app/Contents/MacOS/app.jar"
    (proc (snd (copyJarExec "" "app.jar" s))) = Some "JAR" /\
  file_content "Sample.app/Contents/MacOS/launch"
    (proc (snd (copyJarExec "" "app.jar" s))) = Some (launcher_local_java "app.jar") /\
  file_mode "Sample.app/Contents/MacOS/launch"
    (proc (snd (copyJarExec "" "app.jar" s))) = Some 493%N.
Proof.
  cbv zeta.
  split; [vm_compute; reflexivity|].
  split; [vm_compute; reflexivity|].
  split; [vm_compute; reflexivity|].
  split; [vm_compute; reflexivity|].
  split; [vm_compute; reflexivity|].
  split; vm_compute; reflexivity.
Qed.

(** *** C5: the choice of the strategy and the binary strategy *)






Lemma Create_inr_not_root (path : string) (p p1 : Proc) (k : File) :
  Create path p = (inr k, p1) -> k <> [].
Proof.
  unfold Create. destruct (resolve p true path) as [e|k']; [discriminate|].
  destruct k' as [|a k']; [simpl; discriminate|].
  destruct (lookup_node (fs p) (a :: k')) as [n|]; [destruct (nkind n)|];
    try discriminate; intros [= <- _]; discriminate.
Qed.





Lemma Stat_resolved (path : string) (p : Proc) (k : list string) (n : node) :
  resolve p true path = inr k -> lookup_node (fs p) k = Some n ->
  Stat path p = inr n.
Proof. intros Hr Hl. unfold Stat. rewrite Hr, Hl. reflexivity. Qed.

Lemma lookup_node_cons (m : gmap (list string) node) (k : list string) :
  k <> [] -> lookup_node m k = m !! k.
Proof. destruct k; [congruence|reflexivity]. Qed.

Lemma Chmod_ok (path : string) (mode : N) (p p' : Proc) (k : list string)
  (n : node) :
  resolve p true path = inr k -> fs p !! k = Some n ->
  Chmod path mode p = (None, p') ->
  p' = set_fs p (<[k := mkNode (nkind n) mode (nuid n) (ngid n)]> (fs p)).
Proof.
  intros Hr Hl. unfold Chmod. rewrite Hr, Hl. intros [= <-]. reflexivity.
Qed.



(** The binary strategy on a payload named [tool]. *)
Lemma binary_payload_run :
  HasSuffix "tool" "jar" = false /\
  fst (copyCompExec "" "tool"
         (laid_out (with_exec_file sample "tool")
            (proc_of ((["work"; "tool"], regular "ELF") :: sources)))) = None /\
  Stat "Sample.app/Contents/MacOS/tool"
    (proc (snd (copyCompExec "" "tool"
                  (laid_out (with_exec_file sample "tool")
                     (proc_of ((["work"; "tool"], regular "ELF") :: sources))))))
    = inr (mkNode (KFile "ELF") 493 501 20).
Proof.
  split; [reflexivity|]. split; vm_compute; reflexivity.
Qed.

End Claims.

(** ** The parameter store of package [config] *)

Module ConfigFacts.
Import os SpecMore.
Import config.

Lemma pair_eta (q : keyValuePair) :
  mkKeyValuePair (config.key q) (value q) = q.
Proof. destruct q; reflexivity. Qed.

Lemma group_eta (G : configParameters) :
  mkConfigParameters (group G) (parameter G) = G.
Proof. destruct G; reflexivity. Qed.

(** The pairs of a group with another name are copied as they are. *)
Lemma change_pairs_other (g k v gn : string) (pairs : list keyValuePair) (pf : bool) :
  String.eqb gn g = false ->
  change_pairs g k v gn pairs pf = (pf, pairs).
Proof.
  intros Hg. revert pf.
  induction pairs as [|q pairs IH]; intros pf; simpl; [reflexivity|].
  rewrite Hg, andb_false_r, IH, pair_eta. reflexivity.
Qed.

(** The pairs of a group named [g]: the pairs with key [k] get the value. *)
Lemma change_pairs_same (g k v : string) (pairs : list keyValuePair) (pf : bool) :
  change_pairs g k v g pairs pf
  = (pf || existsb (fun q => String.eqb k (config.key q)) pairs,
     map (fun q => if String.eqb k (config.key q)
                   then mkKeyValuePair (config.key q) v else q) pairs).
Proof.
  revert pf.
  induction pairs as [|q pairs IH]; intros pf; simpl.
  - rewrite orb_false_r. reflexivity.
  - rewrite String.eqb_refl, andb_true_r.
    destruct (String.eqb k (config.key q)); rewrite IH; simpl.
    + rewrite orb_true_r. reflexivity.
    + rewrite pair_eta. reflexivity.
Qed.

Lemma search_pairs_other (g k gn : string) (pairs : list keyValuePair) :
  String.eqb gn g = false -> search_pairs g k gn pairs = None.
Proof.
  intros Hg. induction pairs as [|q pairs IH]; simpl; [reflexivity|].
  rewrite Hg. exact IH.
Qed.

Lemma search_pairs_app (g k gn : string) (l l' : list keyValuePair) :
  search_pairs g k gn (l ++ l')
  = match search_pairs g k gn l with
    | Some v => Some v
    | None => search_pairs g k gn l'
    end.
Proof.
  induction l as [|q l IH]; simpl; [reflexivity|].
  destruct (String.eqb gn g && String.eqb (config.key q) k); [reflexivity|exact IH].
Qed.

Lemma search_groups_app (g k : string) (l l' : list configParameters) :
  search_groups g k (l ++ l')
  = match search_groups g k l with
    | Some v => Some v
    | None => search_groups g k l'
    end.
Proof.
  induction l as [|G l IH]; simpl; [reflexivity|].
  destruct (search_pairs g k (group G) (parameter G)); [reflexivity|exact IH].
Qed.

(** Looking up [k] among the changed pairs of a group named [g]. *)
Lemma search_pairs_changed (g k v : string) (pairs : list keyValuePair) :
  search_pairs g k g
    (map (fun q => if String.eqb k (config.key q)
                   then mkKeyValuePair (config.key q) v else q) pairs)
  = if existsb (fun q => String.eqb k (config.key q)) pairs
    then Some v else None.
Proof.
  induction pairs as [|q pairs IH]; simpl; [reflexivity|].
  rewrite String.eqb_refl. simpl.
  destruct (String.eqb k (config.key q)) eqn:E; simpl.
  - rewrite String.eqb_sym, E. reflexivity.
  - rewrite String.eqb_sym, E. exact IH.
Qed.

(** Looking up another key among the changed pairs. *)
Lemma search_pairs_changed_other (g k v gn k' : string) (pairs : list keyValuePair) :
  String.eqb k k' = false ->
  search_pairs gn k' g
    (map (fun q => if String.eqb k (config.key q)
                   then mkKeyValuePair (config.key q) v else q) pairs)
  = search_pairs gn k' g pairs.
Proof.
  intros Hk. induction pairs as [|q pairs IH]; simpl; [reflexivity|].
  destruct (String.eqb k (config.key q)) eqn:E; simpl.
  - apply String.eqb_eq in E. subst k. rewrite Hk, andb_false_r. exact IH.
  - rewrite IH. reflexivity.
Qed.

Lemma change_groups_found (g k v : string) (ps : list configParameters) (pf gf : bool) :
  fst (change_groups g k v ps pf gf) = gf || existsb (named g) ps.
Proof.
  revert pf gf.
  induction ps as [|G ps IH]; intros pf gf; simpl.
  - rewrite orb_false_r. reflexivity.
  - destruct (change_pairs g k v (group G) (parameter G) pf) as [pf1 kv].
    specialize (IH pf1 (if String.eqb (group G) g then true else gf)).
    destruct (change_groups g k v ps pf1 _) as [gf1 r]. simpl in *.
    rewrite IH. unfold named at 2.
    destruct (String.eqb (group G) g), gf; reflexivity.
Qed.

Lemma change_groups_names (g k v : string) (ps : list configParameters) (pf gf : bool) :
  map group (snd (change_groups g k v ps pf gf)) = map group ps.
Proof.
  revert pf gf.
  induction ps as [|G ps IH]; intros pf gf; simpl; [reflexivity|].
  destruct (change_pairs g k v (group G) (parameter G) pf) as [pf1 kv].
  specialize (IH pf1 (if String.eqb (group G) g then true else gf)).
  destruct (change_groups g k v ps pf1 _) as [gf1 r]. simpl in *.
  rewrite IH. reflexivity.
Qed.

Lemma change_groups_lookup (g k v : string) (ps : list configParameters) (gf : bool) :
  search_groups g k (snd (change_groups g k v ps false gf))
  = if existsb (named g) ps then Some v else None.
Proof.
  revert gf.
  induction ps as [|G ps IH]; intros gf; simpl; [reflexivity|].
  unfold named at 1.
  destruct (String.eqb (group G) g) eqn:Eg.
  - apply String.eqb_eq in Eg. rewrite Eg, change_pairs_same. simpl.
    rewrite ?andb_true_r.
    destruct (change_groups g k v ps _ true) as [gf1 r]. simpl.
    destruct (existsb _ (parameter G)) eqn:Ek; simpl.
    + rewrite search_pairs_changed, Ek. reflexivity.
    + rewrite search_pairs_app, search_pairs_changed, Ek. simpl.
      rewrite !String.eqb_refl. reflexivity.
  - rewrite (change_pairs_other _ _ _ _ _ _ Eg), ?Eg, ?andb_false_r.
    specialize (IH gf).
    destruct (change_groups g k v ps false gf) as [gf1 r]. simpl in *.
    rewrite (search_pairs_other _ _ _ _ Eg). exact IH.
Qed.

Lemma change_groups_lookup_other (g k v g' k' : string)
  (ps : list configParameters) (pf gf : bool) :
  String.eqb g g' && String.eqb k k' = false ->
  search_groups g' k' (snd (change_groups g k v ps pf gf))
  = search_groups g' k' ps.
Proof.
  intros Hne. revert pf gf.
  induction ps as [|G ps IH]; intros pf gf; simpl; [reflexivity|].
  destruct (String.eqb (group G) g) eqn:Eg.
  - apply String.eqb_eq in Eg. rewrite Eg, change_pairs_same.
    rewrite ?String.eqb_refl, ?andb_true_r.
    specialize (IH (pf || existsb (fun q => String.eqb k (config.key q)) (parameter G)) true).
    destruct (change_groups g k v ps _ true) as [gf1 r]. simpl in *.
    rewrite IH.
    destruct (String.eqb g g') eqn:Eg'.
    + simpl in Hne.
      assert (E : forall l,
        search_pairs g' k' g
          (if negb (pf || existsb (fun q => String.eqb k (config.key q)) (parameter G))
           then l ++ [mkKeyValuePair k v] else l)
        = search_pairs g' k' g l).
      { intros l. destruct (negb _); [|reflexivity].
        rewrite search_pairs_app. simpl. rewrite Hne, andb_false_r.
        destruct (search_pairs g' k' g l); reflexivity. }
      rewrite E, (search_pairs_changed_other _ _ _ _ _ _ Hne). reflexivity.
    + rewrite !(search_pairs_other _ _ _ _ Eg'). reflexivity.
  - rewrite (change_pairs_other _ _ _ _ _ _ Eg), ?andb_false_r.
    specialize (IH pf gf).
    destruct (change_groups g k v ps pf gf) as [gf1 r]. simpl in *.
    rewrite IH. reflexivity.
Qed.

Lemma Change_fst (g k v : string) (ps : list configParameters) :
  fst (ChangeParameterStructure g k v ps)
  = snd (change_groups g k v ps false false)
    ++ (if existsb (named g) ps then []
        else [mkConfigParameters g [mkKeyValuePair k v]]).
Proof.
  unfold ChangeParameterStructure.
  pose proof (change_groups_found g k v ps false false) as Hf.
  destruct (change_groups g k v ps false false) as [gf r]. simpl in *.
  rewrite Hf. destruct (existsb (named g) ps); simpl; [|reflexivity].
  rewrite app_nil_r. reflexivity.
Qed.

(** X1: a setting that was changed is found, with the new value. *)
Lemma lookup_after_change (g k v : string) (ps : list configParameters) :
  GetStringByGroupAndElement (fst (ChangeParameterStructure g k v ps)) g k
  = (v, None).
Proof.
  unfold GetStringByGroupAndElement.
  rewrite Change_fst, search_groups_app, change_groups_lookup.
  destruct (existsb (named g) ps); [reflexivity|].
  simpl. rewrite !String.eqb_refl. reflexivity.
Qed.

(** X2: the other settings are read as before. *)
Lemma lookup_other_after_change (g k v g' k' : string) (ps : list configParameters) :
  (g', k') <> (g, k) ->
  GetStringByGroupAndElement (fst (ChangeParameterStructure g k v ps)) g' k'
  = GetStringByGroupAndElement ps g' k'.
Proof.
  intros Hne.
  assert (Hb : String.eqb g g' && String.eqb k k' = false).
  { destruct (String.eqb_spec g g') as [->|]; [|reflexivity].
    destruct (String.eqb_spec k k') as [->|]; [|reflexivity].
    contradiction Hne; reflexivity. }
  unfold GetStringByGroupAndElement.
  rewrite Change_fst, search_groups_app, (change_groups_lookup_other _ _ _ _ _ _ _ _ Hb).
  destruct (search_groups g' k' ps); [reflexivity|].
  destruct (existsb (named g) ps); [reflexivity|].
  simpl. rewrite (String.eqb_sym k k'), (String.eqb_sym g g').
  rewrite (String.eqb_sym g g'), (String.eqb_sym k k') in Hb.
  rewrite Hb. reflexivity.
Qed.

Lemma lookup_other_after_change_witness :
  config.GetStringByGroupAndElement
    (fst (config.ChangeParameterStructure "DB" "port" "5432"
            config.setDefaultParameters)) "Network" "port"
  = config.GetStringByGroupAndElement config.setDefaultParameters "Network" "port".
Proof.
  apply (lookup_other_after_change "DB" "port" "5432" "Network" "port"
           config.setDefaultParameters).
  discriminate.
Defined.


Lemma existsb_named_names (g : string) (l l' : list configParameters) :
  map group l = map group l' -> existsb (named g) l = existsb (named g) l'.
Proof.
  revert l'. induction l as [|G l IH]; intros [|G' l'] H; try discriminate; [reflexivity|].
  simpl in *. injection H as HG Hl. unfold named at 1 3. rewrite HG, (IH _ Hl).
  reflexivity.
Qed.

Lemma change_groups_cons (g k v : string) (G : configParameters)
  (ps : list configParameters) (pf gf : bool) :
  snd (change_groups g k v (G :: ps) pf gf)
  = mkConfigParameters (group G)
      (if negb (fst (change_pairs g k v (group G) (parameter G) pf))
          && String.eqb (group G) g
       then snd (change_pairs g k v (group G) (parameter G) pf)
              ++ [mkKeyValuePair k v]
       else snd (change_pairs g k v (group G) (parameter G) pf))
    :: snd (change_groups g k v ps
              (fst (change_pairs g k v (group G) (parameter G) pf))
              (if String.eqb (group G) g then true else gf)).
Proof.
  simpl.
  destruct (change_pairs g k v (group G) (parameter G) pf) as [pf1 kv].
  cbn [fst snd].
  destruct (change_groups g k v ps pf1 _) as [gf1 r]. reflexivity.
Qed.

(** The new groups do not depend on [groupFound]. *)
Lemma change_groups_snd_gf (g k v : string) (ps : list configParameters)
  (pf gf gf' : bool) :
  snd (change_groups g k v ps pf gf) = snd (change_groups g k v ps pf gf').
Proof.
  revert pf gf gf'.
  induction ps as [|G ps IH]; intros pf gf gf'; [reflexivity|].
  rewrite !change_groups_cons. f_equal. apply IH.
Qed.

Lemma change_again_pairs (k v1 v2 : string) (pairs : list keyValuePair) (b : bool) :
  map (fun q => if String.eqb k (config.key q)
                then mkKeyValuePair (config.key q) v2 else q)
    (map (fun q => if String.eqb k (config.key q)
                   then mkKeyValuePair (config.key q) v1 else q) pairs
     ++ (if b then [mkKeyValuePair k v1] else []))
  = map (fun q => if String.eqb k (config.key q)
                  then mkKeyValuePair (config.key q) v2 else q) pairs
    ++ (if b then [mkKeyValuePair k v2] else []).
Proof.
  rewrite map_app, map_map. f_equal.
  - apply map_ext. intros q.
    destruct (String.eqb k (config.key q)) eqn:E; simpl; rewrite E; reflexivity.
  - destruct b; [|reflexivity]. simpl. rewrite String.eqb_refl. reflexivity.
Qed.

Lemma if_app {A} (b : bool) (l l' : list A) :
  (if b then l ++ l' else l) = l ++ (if b then l' else []).
Proof. destruct b; [reflexivity|]. rewrite app_nil_r. reflexivity. Qed.

Lemma existsb_changed (k v : string) (pairs : list keyValuePair) (pf : bool) :
  existsb (fun q => String.eqb k (config.key q))
    (map (fun q => if String.eqb k (config.key q)
                   then mkKeyValuePair (config.key q) v else q) pairs
     ++ (if negb (pf || existsb (fun q => String.eqb k (config.key q)) pairs)
         then [mkKeyValuePair k v] else []))
  = negb pf || existsb (fun q => String.eqb k (config.key q)) pairs.
Proof.
  rewrite existsb_app.
  assert (E : existsb (fun q => String.eqb k (config.key q))
                (map (fun q => if String.eqb k (config.key q)
                   then mkKeyValuePair (config.key q) v else q) pairs)
              = existsb (fun q => String.eqb k (config.key q)) pairs).
  { induction pairs as [|q pairs IH]; simpl; [reflexivity|].
    rewrite IH. destruct (String.eqb k (config.key q)) eqn:E; simpl; rewrite E;
      reflexivity. }
  rewrite E.
  destruct pf, (existsb _ pairs); simpl; rewrite ?String.eqb_refl; reflexivity.
Qed.

(** A second change made when the key counts as found. *)
Lemma change_again_found (g k v1 v2 : string) (ps : list configParameters)
  (pf gf gf' gf'' : bool) :
  snd (change_groups g k v2 (snd (change_groups g k v1 ps pf gf)) true gf')
  = snd (change_groups g k v2 ps pf gf'').
Proof.
  revert pf gf gf' gf''.
  induction ps as [|G ps IH]; intros pf gf gf' gf''; [reflexivity|].
  rewrite (change_groups_cons g k v1), !(change_groups_cons g k v2).
  cbn [group parameter].
  destruct (String.eqb (group G) g) eqn:Eg.
  - apply String.eqb_eq in Eg. rewrite Eg, !change_pairs_same.
    cbn [fst snd]. rewrite ?andb_true_r, ?if_app, ?change_pairs_same.
    cbn [fst snd negb andb orb]. rewrite change_again_pairs, ?app_nil_r.
    f_equal. apply IH.
  - rewrite !andb_false_r, !(change_pairs_other _ _ _ _ _ _ Eg).
    cbn [fst snd]. rewrite ?(change_pairs_other _ _ _ _ _ _ Eg).
    cbn [fst snd]. f_equal. apply IH.
Qed.

Lemma change_again_groups (g k v1 v2 : string) (ps : list configParameters)
  (gf gf' gf'' : bool) :
  snd (change_groups g k v2 (snd (change_groups g k v1 ps false gf)) false gf')
  = snd (change_groups g k v2 ps false gf'').
Proof.
  revert gf gf' gf''.
  induction ps as [|G ps IH]; intros gf gf' gf''; [reflexivity|].
  rewrite (change_groups_cons g k v1), !(change_groups_cons g k v2).
  cbn [group parameter].
  destruct (String.eqb (group G) g) eqn:Eg.
  - apply String.eqb_eq in Eg. rewrite Eg, !change_pairs_same.
    cbn [fst snd]. rewrite ?andb_true_r, ?if_app, ?change_pairs_same.
    cbn [fst snd]. rewrite existsb_changed. cbn [negb orb andb].
    rewrite change_again_pairs, ?app_nil_r.
    f_equal. apply change_again_found.
  - rewrite !andb_false_r, !(change_pairs_other _ _ _ _ _ _ Eg).
    cbn [fst snd]. rewrite ?(change_pairs_other _ _ _ _ _ _ Eg).
    cbn [fst snd]. f_equal. apply IH.
Qed.

(** Without a group named [g] nothing is changed. *)
Lemma change_groups_absent (g k v : string) (ps l : list configParameters)
  (pf gf : bool) :
  existsb (named g) ps = false ->
  snd (change_groups g k v (ps ++ l) pf gf)
  = ps ++ snd (change_groups g k v l pf gf).
Proof.
  revert pf gf.
  induction ps as [|G ps IH]; intros pf gf H; [reflexivity|].
  simpl in H. apply orb_false_elim in H as [HG H]. unfold named in HG.
  change ((G :: ps) ++ l) with (G :: (ps ++ l)).
  rewrite change_groups_cons, HG, andb_false_r,
    (change_pairs_other _ _ _ _ _ _ HG).
  cbn [fst snd]. rewrite group_eta, (IH _ _ H). reflexivity.
Qed.

(** X3: of two changes of one setting the last one wins. *)
Lemma change_twice (g k v1 v2 : string) (ps : list configParameters) :
  fst (ChangeParameterStructure g k v2
         (fst (ChangeParameterStructure g k v1 ps)))
  = fst (ChangeParameterStructure g k v2 ps).
Proof.
  rewrite (Change_fst g k v2 (fst _)), (Change_fst g k v1), (Change_fst g k v2 ps).
  destruct (existsb (named g) ps) eqn:E.
  - rewrite !app_nil_r.
    rewrite (existsb_named_names g _ ps (change_groups_names _ _ _ _ _ _)), E.
    rewrite app_nil_r.
    exact (change_again_groups g k v1 v2 ps false false false).
  - pose proof (change_groups_absent g k v1 ps [] false false E) as H1.
    rewrite app_nil_r in H1. simpl in H1. rewrite app_nil_r in H1.
    pose proof (change_groups_absent g k v2 ps [] false false E) as H2.
    rewrite app_nil_r in H2. simpl in H2. rewrite app_nil_r in H2.
    rewrite H1, H2.
    rewrite existsb_app, E. simpl. unfold named at 1. simpl.
    rewrite String.eqb_refl. simpl. rewrite app_nil_r.
    rewrite (change_groups_absent g k v2 ps _ false false E).
    simpl. rewrite !String.eqb_refl. reflexivity.
Qed.

(** X4: the groups keep their names and their order; a group is added, at
    the end, only when no group has the name. *)
Lemma change_keeps_groups (g k v : string) (ps : list configParameters) :
  map group (fst (ChangeParameterStructure g k v ps))
  = map group ps ++ (if existsb (named g) ps then [] else [g]).
Proof.
  rewrite Change_fst, map_app, change_groups_names.
  destruct (existsb (named g) ps); reflexivity.
Qed.

Lemma search_pairs_Some (g k gn v : string) (pairs : list keyValuePair) :
  search_pairs g k gn pairs = Some v ->
  gn = g /\ exists q, In q pairs /\ config.key q = k.
Proof.
  induction pairs as [|q pairs IH]; simpl; [discriminate|].
  destruct (String.eqb gn g) eqn:Eg; simpl.
  - destruct (String.eqb (config.key q) k) eqn:Ek.
    + intros _. apply String.eqb_eq in Eg, Ek. split; [exact Eg|].
      exists q. split; [left; reflexivity|exact Ek].
    + intros H. destruct (IH H) as (? & q' & Hq & Hk).
      split; [assumption|]. exists q'. split; [right; exact Hq|exact Hk].
  - intros H. destruct (IH H) as (? & q' & Hq & Hk).
    split; [assumption|]. exists q'. split; [right; exact Hq|exact Hk].
Qed.

Lemma search_pairs_None (g k : string) (pairs : list keyValuePair) :
  search_pairs g k g pairs = None ->
  forall q, In q pairs -> config.key q <> k.
Proof.
  induction pairs as [|q pairs IH]; simpl; [intros _ ? []|].
  rewrite String.eqb_refl. simpl.
  destruct (String.eqb_spec (config.key q) k) as [|Hne]; [discriminate|].
  intros H q' [<-|Hq]; [exact Hne|exact (IH H q' Hq)].
Qed.

Lemma search_groups_Some (g k v : string) (ps : list configParameters) :
  search_groups g k ps = Some v -> has_setting g k ps.
Proof.
  induction ps as [|G ps IH]; simpl; [discriminate|].
  destruct (search_pairs g k (group G) (parameter G)) as [w|] eqn:E.
  - intros _. destruct (search_pairs_Some _ _ _ _ _ E) as (HG & q & Hq & Hk).
    exists G, q. repeat split; try assumption. left; reflexivity.
  - intros H. destruct (IH H) as (G' & q & HG' & Hg & Hq & Hk).
    exists G', q. repeat split; try assumption. right; exact HG'.
Qed.

Lemma search_groups_None (g k : string) (ps : list configParameters) :
  search_groups g k ps = None -> ~ has_setting g k ps.
Proof.
  induction ps as [|G ps IH]; simpl.
  - intros _ (G & q & [] & _).
  - destruct (search_pairs g k (group G) (parameter G)) as [w|] eqn:E;
      [discriminate|].
    intros H (G' & q & [<-|HG'] & Hg & Hq & Hk).
    + rewrite Hg in E. exact (search_pairs_None _ _ _ E q Hq Hk).
    + apply (IH H). exists G', q. repeat split; assumption.
Qed.

(** X5: a lookup fails exactly when no group of that name has the key. *)
Lemma lookup_found_iff (g k : string) (ps : list configParameters) :
  (has_setting g k ps <->
   exists v, GetStringByGroupAndElement ps g k = (v, None)) /\
  (~ has_setting g k ps <->
   GetStringByGroupAndElement ps g k
   = (""%string, Some (errorString "value not found in configuration"))).
Proof.
  unfold GetStringByGroupAndElement.
  destruct (search_groups g k ps) as [v|] eqn:E.
  - pose proof (search_groups_Some _ _ _ _ E) as H. split; split.
    + intros _. exists v. reflexivity.
    + intros _. exact H.
    + intros Hn. contradiction.
    + discriminate.
  - pose proof (search_groups_None _ _ _ E) as H. split; split.
    + intros Hs. contradiction.
    + intros [v Hv]. discriminate.
    + intros _. reflexivity.
    + intros _. exact H.
Qed.

End ConfigFacts.

(** ** The files the stages write *)

Module WriteFacts.
Import GoStrings filepath os Go application main Spec SpecMore Scenario.
Import PathFacts FsFacts LayoutFacts StageFacts Claims.

(** A file that was created and then written once. *)
Lemma Create_then_write (path content : string) (p p1 : Proc) (k : File) :
  Create path p = (inr k, p1) ->
  exists mode uid gid,
    k <> [] /\
    (fs p !! k = None \/ exists n c, fs p !! k = Some n /\ nkind n = KFile c) /\
    resolve p true path = inr k /\
    snd (WriteString k content p1)
    = set_fs p (<[k := mkNode (KFile content) mode uid gid]> (fs p)).
Proof.
  intros EC. pose proof (Create_inr_not_root _ _ _ _ EC) as Hnil.
  apply Create_inr in EC. destruct EC as (Hres & Hk & mode & uid & gid & ->).
  exists mode, uid, gid. split; [exact Hnil|]. split; [exact Hk|].
  split; [exact Hres|].
  unfold WriteString. cbn [snd fs set_fs].
  rewrite alter_insert_eq. reflexivity.
Qed.

(** A regular file put where there was none, or a regular file, is what
    a path that led there leads to. *)
Lemma Stat_insert_file (path : string) (p p' : Proc) (k : list string) (n' : node) :
  k <> [] ->
  cwd p' = cwd p ->
  fs p' = <[k := n']> (fs p) ->
  (fs p !! k = None \/ exists n c, fs p !! k = Some n /\ nkind n = KFile c) ->
  (exists c', nkind n' = KFile c') ->
  resolve p true path = inr k ->
  resolve p' true path = inr k /\ Stat path p' = inr n'.
Proof.
  intros Hnil Hcwd Hfs Hk Hn' Hres.
  pose proof (resolve_insert_file p p' k k n' true path Hcwd Hfs Hk Hn' Hres) as Hres'.
  split; [exact Hres'|].
  apply (Stat_resolved path p' k n' Hres').
  rewrite lookup_node_cons by exact Hnil. rewrite Hfs. apply lookup_insert_eq.
Qed.

Lemma CreatePkgInfo_None (s s1 : State) :
  CreatePkgInfo s = (None, s1) -> exists p1, s1 = set_proc s p1.
Proof.
  unfold CreatePkgInfo.
  destruct (sys (Create (Join (contentsDir s) "PkgInfo")) s) as [[e|file] s0] eqn:E.
  - unfold cleanAfterError. destruct (negb _); discriminate.
  - apply sys_inv in E. destruct E as (p0 & _ & ->).
    unfold sys, WriteString. cbn [proc set_proc]. intros [= <-]. eauto.
Qed.

Lemma mandatory_missing_false (s : State) :
  mandatory_missing (plistStructure_of s) = false -> ~ mandatory_field_empty s.
Proof.
  intros H Hm. rewrite (mandatory_missing_true s Hm) in H. discriminate.
Qed.

(** X6: when [CreatePlist] succeeds no mandatory field is empty and the
    path of [Info.plist] leads to a regular file that holds the rendered
    template. *)
Lemma CreatePlist_writes_the_template (s s' : State) :
  CreatePlist s = (None, s') ->
  ~ mandatory_field_empty s /\
  file_content (Join (contentsDir s) "Info.plist") (proc s')
    = Some (render_plistTemplate (plistStructure_of s)) /\
  variables s' = variables s.
Proof.
  unfold CreatePlist, and_then.
  destruct (CreatePkgInfo s) as [[e|] s1] eqn:E1; [discriminate|].
  apply CreatePkgInfo_None in E1. destruct E1 as (p1 & ->).
  destruct (mandatory_missing (plistStructure_of s)) eqn:Em; [discriminate|].
  generalize (render_plistTemplate (plistStructure_of s)). intros text.
  destruct (sys (Create (Join (contentsDir s) "Info.plist")) (set_proc s p1))
    as [[e|file] s2] eqn:E2.
  { unfold cleanAfterError. destruct (negb _); discriminate. }
  apply sys_inv in E2. destruct E2 as (p2 & E2 & ->).
  cbn [proc set_proc] in E2.
  unfold sys. cbn [proc set_proc].
  destruct (WriteString file text p2) as [[e|] p3] eqn:E3.
  { unfold cleanAfterError. destruct (negb _); discriminate. }
  intros [= <-].
  split; [exact (mandatory_missing_false s Em)|]. split; [|reflexivity].
  destruct (Create_then_write _ text _ _ _ E2)
    as (mode & uid & gid & Hnil & Hk & Hres & Hw).
  rewrite E3 in Hw. cbn [snd] in Hw.
  cbn [proc set_proc].
  destruct (Stat_insert_file (Join (contentsDir s) "Info.plist") p1 p3 file
              (mkNode (KFile text) mode uid gid) Hnil) as [_ HS];
    [rewrite Hw; reflexivity|rewrite Hw; reflexivity|exact Hk|eauto|exact Hres|].
  unfold file_content. rewrite HS. reflexivity.
Qed.

Lemma CreatePlist_writes_the_template_witness :
  ~ mandatory_field_empty (laid_out sample (proc_of sources)) /\
  file_content (Join (contentsDir (laid_out sample (proc_of sources))) "Info.plist")
    (proc (with_metadata sample (proc_of sources)))
    = Some (render_plistTemplate (plistStructure_of (laid_out sample (proc_of sources)))) /\
  variables (with_metadata sample (proc_of sources))
    = variables (laid_out sample (proc_of sources)).
Proof.
  apply (CreatePlist_writes_the_template (laid_out sample (proc_of sources))
           (with_metadata sample (proc_of sources))).
  vm_compute. reflexivity.
Defined.


Lemma Chmod_file (path : string) (mode : N) (p p' : Proc) (k : list string)
  (n : node) (c : string) :
  k <> [] ->
  resolve p true path = inr k -> fs p !! k = Some n -> nkind n = KFile c ->
  Chmod path mode p = (None, p') ->
  p' = set_fs p (<[k := mkNode (KFile c) mode (nuid n) (ngid n)]> (fs p)) /\
  resolve p' true path = inr k /\
  Stat path p' = inr (mkNode (KFile c) mode (nuid n) (ngid n)).
Proof.
  intros Hnil Hres Hl Hc E.
  pose proof (Chmod_ok path mode p p' k n Hres Hl E) as Hp'.
  rewrite Hc in Hp'. split; [exact Hp'|].
  apply (Stat_insert_file path p p' k _ Hnil);
    [rewrite Hp'; reflexivity|rewrite Hp'; reflexivity| |eauto|exact Hres].
  right. eauto.
Qed.

(** X7: when the JAR strategy succeeds, the path of the launcher leads to a
    regular file of mode 0755 that holds the script for the bundled
    runtime or the one for the system's Java, as [local_java] says. *)
Lemma copyJarExec_writes_the_launcher (execPath execFile : string) (s s' : State) :
  copyJarExec execPath execFile s = (None, s') ->
  file_content (Join (macosDir s) (GetBundleExecutable s)) (proc s')
    = Some (if GetUseLocalJava s then launcher_local_java execFile
            else launcher_system_java execFile) /\
  file_mode (Join (macosDir s) (GetBundleExecutable s)) (proc s') = Some 493%N /\
  variables s' = variables s.
Proof.
  unfold copyJarExec, and_then, with_value.
  set (exe := Join (macosDir s) (GetBundleExecutable s)).
  destruct (if GetUseLocalJava s
            then sys (fileManagement.CopyDirectory (GetJavaHomeDirectory s)
                        (Join (javaDir s) "runtime")) s
            else (None, s)) as [[e|] s1] eqn:E0; [discriminate|].
  assert (H1 : exists p1, s1 = set_proc s p1).
  { destruct (GetUseLocalJava s).
    - apply sys_inv in E0. destruct E0 as (p1 & _ & ->). eauto.
    - injection E0 as <-. exists (proc s). symmetry. apply set_proc_id. }
  destruct H1 as (p1 & ->). clear E0.
  cbn [macosDir set_proc].
  destruct (sys (fileManagement.Copy (Join execPath execFile)
                   (Join (macosDir s) execFile)) (set_proc s p1))
    as [[e|] s2] eqn:E1; [discriminate|].
  apply sys_inv in E1. destruct E1 as (p2 & _ & ->).
  destruct (sys (Create exe) (set_proc (set_proc s p1) p2)) as [[e|file] s3] eqn:E2;
    [discriminate|].
  apply sys_inv in E2. destruct E2 as (p3 & E2 & ->). cbn [proc set_proc] in E2.
  change (GetUseLocalJava (set_proc (set_proc (set_proc s p1) p2) p3))
    with (GetUseLocalJava s).
  generalize (if GetUseLocalJava s then launcher_local_java execFile
              else launcher_system_java execFile). intros text.
  unfold sys at 1. cbn [proc set_proc].
  destruct (WriteString file text p3) as [[e|] p4] eqn:E3; [discriminate|].
  unfold sys. cbn [proc set_proc].
  destruct (Chmod exe 493 p4) as [[e|] p5] eqn:E4; [discriminate|].
  intros [= <-]. cbn [proc set_proc].
  destruct (Create_then_write _ text _ _ _ E2)
    as (mode & uid & gid & Hnil & Hk & Hres & Hw).
  rewrite E3 in Hw. cbn [snd] in Hw.
  destruct (Stat_insert_file exe p2 p4 file (mkNode (KFile text) mode uid gid) Hnil)
    as [Hres4 _];
    [rewrite Hw; reflexivity|rewrite Hw; reflexivity|exact Hk|eauto|exact Hres|].
  assert (Hl4 : fs p4 !! file = Some (mkNode (KFile text) mode uid gid)).
  { rewrite Hw. apply lookup_insert_eq. }
  destruct (Chmod_file exe 493 p4 p5 file _ text Hnil Hres4 Hl4 eq_refl E4)
    as (_ & _ & HS).
  unfold file_content, file_mode. rewrite HS. repeat split.
Qed.

Lemma copyJarExec_writes_the_launcher_witness :
  file_content (Join (macosDir (with_metadata sample (proc_of sources)))
                  (GetBundleExecutable (with_metadata sample (proc_of sources))))
    (proc (snd (copyJarExec "" "app.jar" (with_metadata sample (proc_of sources)))))
    = Some (if GetUseLocalJava (with_metadata sample (proc_of sources))
            then launcher_local_java "app.jar"
            else launcher_system_java "app.jar") /\
  file_mode (Join (macosDir (with_metadata sample (proc_of sources)))
               (GetBundleExecutable (with_metadata sample (proc_of sources))))
    (proc (snd (copyJarExec "" "app.jar" (with_metadata sample (proc_of sources)))))
    = Some 493%N /\
  variables (snd (copyJarExec "" "app.jar" (with_metadata sample (proc_of sources))))
    = variables (with_metadata sample (proc_of sources)).
Proof.
  apply (copyJarExec_writes_the_launcher "" "app.jar"
           (with_metadata sample (proc_of sources))
           (snd (copyJarExec "" "app.jar" (with_metadata sample (proc_of sources))))).
  vm_compute. reflexivity.
Defined.




(** X9: [Copy] of a regular file onto itself leaves it empty: the
    destination is created, and so truncated, before the source is read. *)
Lemma Copy_onto_itself (src dst : string) (p : Proc) (k : list string)
  (n : node) (c : string) :
  resolve p true src = inr k -> resolve p true dst = inr k ->
  lookup_node (fs p) k = Some n -> nkind n = KFile c ->
  exists p',
    fileManagement.Copy src dst p = (None, p') /\
    file_content src p' = Some ""%string /\
    file_content dst p' = Some ""%string /\
    forall k', k' <> k -> fs p' !! k' = fs p !! k'.
Proof.
  intros Hsrc Hdst Hl Hc.
  assert (Hnil : k <> []).
  { intros ->. simpl in Hl. injection Hl as <-. discriminate Hc. }
  set (f := mkNode (KFile "") (nmode n) (nuid n) (ngid n)).
  set (p1 := set_fs p (<[k := f]> (fs p))).
  assert (EC : Create dst p = (inr k, p1)).
  { unfold Create. rewrite Hdst, Hl, Hc. reflexivity. }
  assert (Hk : fs p !! k = None \/ exists n0 c0, fs p !! k = Some n0 /\ nkind n0 = KFile c0).
  { right. exists n, c. rewrite <- (lookup_node_cons _ _ Hnil). split; assumption. }
  assert (Hf : exists c', nkind f = KFile c') by (unfold f; eauto).
  destruct (Stat_insert_file dst p p1 k f Hnil eq_refl eq_refl Hk Hf Hdst)
    as [Hdst1 HSd].
  destruct (Stat_insert_file src p p1 k f Hnil eq_refl eq_refl Hk Hf Hsrc)
    as [Hsrc1 HSs].
  assert (Hl1 : lookup_node (fs p1) k = Some f).
  { rewrite lookup_node_cons by exact Hnil. apply lookup_insert_eq. }
  assert (Hp1 : set_fs p1 (alter (append_content "") k (fs p1)) = p1).
  { unfold p1. cbn [fs set_fs]. rewrite alter_insert_eq. reflexivity. }
  exists p1. split; [|split; [|split]].
  - unfold fileManagement.Copy, with_value. rewrite EC.
    unfold Open. rewrite Hsrc1, Hl1.
    unfold io_Copy. rewrite Hl1. cbn [nkind f]. unfold WriteString.
    rewrite Hp1. reflexivity.
  - unfold file_content. rewrite HSs. reflexivity.
  - unfold file_content. rewrite HSd. reflexivity.
  - intros k' Hne. unfold p1. cbn [fs set_fs]. apply lookup_insert_ne. congruence.
Qed.

Lemma Copy_onto_itself_witness :
  exists p',
    fileManagement.Copy "app.jar" "./app.jar" (proc_of sources) = (None, p') /\
    file_content "app.jar" p' = Some ""%string /\
    file_content "./app.jar" p' = Some ""%string /\
    forall k', k' <> ["work"; "app.jar"] ->
               fs p' !! k' = fs (proc_of sources) !! k'.
Proof.
  apply (Copy_onto_itself "app.jar" "./app.jar" (proc_of sources)
           ["work"; "app.jar"] (regular "JAR") "JAR").
  - vm_compute. reflexivity.
  - vm_compute. reflexivity.
  - vm_compute. reflexivity.
  - reflexivity.
Defined.

End WriteFacts.

(** ** More on the layout *)

Module MoreLayoutFacts.
Import GoStrings filepath os Go application main Spec SpecMore Scenario.
Import PathFacts FsFacts LayoutFacts StageFacts Claims.

Lemma only_adds_refl (d : node) (m : gmap (list string) node) : only_adds d m m.
Proof.
  split; [reflexivity|]. intros k n H1 H2. rewrite H1 in H2. discriminate.
Qed.

Lemma only_adds_trans (d : node) (m1 m2 m3 : gmap (list string) node) :
  only_adds d m1 m2 -> only_adds d m2 m3 -> only_adds d m1 m3.
Proof.
  intros [S1 N1] [S2 N2]. split; [etrans; eassumption|].
  intros k n H3 H1. destruct (m2 !! k) as [n2|] eqn:E2.
  - pose proof (lookup_weaken _ _ _ _ E2 S2) as H. rewrite H in H3.
    injection H3 as <-. exact (N1 k n2 E2 H1).
  - exact (N2 k n H3 E2).
Qed.

Lemma only_adds_insert (d : node) (m : gmap (list string) node) (k : list string) :
  m !! k = None -> only_adds d m (<[k := d]> m).
Proof.
  intros Hk. split; [apply insert_subseteq, Hk|].
  intros i n Hi Hn. destruct (decide (k = i)) as [<-|Hne].
  - rewrite lookup_insert_eq in Hi. injection Hi as <-. reflexivity.
  - rewrite lookup_insert_ne in Hi by exact Hne. rewrite Hi in Hn. discriminate.
Qed.

(** [mkdir_names] adds directories where there was nothing and changes
    no node that exists. *)
Lemma mkdir_names_adds (d : node) (todo : list string) :
  forall (m : gmap (list string) node) (cur : key) (m' : gmap (list string) node),
    mkdir_names d m cur todo = inr m' -> only_adds d m m'.
Proof.
  induction todo as [|c rest IH]; intros m cur m'; cbn [mkdir_names].
  - intros [= <-]. apply only_adds_refl.
  - destruct (String.eqb c "" || String.eqb c "."); [apply IH|].
    destruct (String.eqb c ".."); [apply IH|].
    destruct (m !! (cur ++ [c])) as [n|] eqn:E.
    + destruct (nkind n); [apply IH|discriminate|].
      destruct (walk MAXSYMLINKS m true (if rooted target then [] else cur)
                  (path_names target)) as [e'|k]; [discriminate|].
      destruct (lookup_node m k) as [n'|]; [|discriminate].
      destruct (IsDir n'); [apply IH|discriminate].
    + intros H. apply IH in H.
      exact (only_adds_trans d _ _ _ (only_adds_insert d m _ E) H).
Qed.

Lemma MkdirAll_adds (path : string) (perm : N) (p p' : Proc) (e : option error) :
  MkdirAll path perm p = (e, p') ->
  exists m', p' = set_fs p m' /\
    only_adds (mkNode KDir (N.ldiff perm (umask p)) (euid p) (egid p)) (fs p) m'.
Proof.
  unfold MkdirAll. destruct (String.eqb path "").
  - intros [= _ <-]. exists (fs p). split; [symmetry; apply set_fs_id|apply only_adds_refl].
  - destruct (mkdir_names _ _ _ _) as [err|m'] eqn:E; intros [= _ <-].
    + exists (fs p). split; [symmetry; apply set_fs_id|apply only_adds_refl].
    + exists m'. split; [reflexivity|]. exact (mkdir_names_adds _ _ _ _ _ E).
Qed.

Lemma createDir_or_DeleteAll_adds (path : State -> string) (s s1 : State) :
  createDir_or_DeleteAll path s = (None, s1) ->
  exists m', s1 = set_proc s (set_fs (proc s) m') /\
    only_adds (layout_dir (proc s)) (fs (proc s)) m'.
Proof.
  unfold createDir_or_DeleteAll, createDir, sys.
  destruct (MkdirAll (path s) 493 (proc s)) as [[e|] p'] eqn:E; [discriminate|].
  intros [= <-]. destruct (MkdirAll_adds _ _ _ _ _ E) as (m' & -> & H).
  exists m'. split; [reflexivity|exact H].
Qed.





















End MoreLayoutFacts.

(** ** Teardown, logging and whole runs *)

Module RunFacts.
Import GoStrings filepath os Go application main Spec SpecMore Scenario.
Import PathFacts FsFacts LayoutFacts StageFacts Claims.
Import WriteFacts MoreLayoutFacts.



Lemma OpenFile_append_adds (path : string) (p : Proc) :
  cwd (snd (OpenFile_append path p)) = cwd p /\
  fs p ⊆ fs (snd (OpenFile_append path p)).
Proof.
  unfold OpenFile_append.
  destruct (resolve p true path) as [e|k]; [split; reflexivity|].
  destruct k as [|a k]; [split; reflexivity|].
  change (lookup_node (fs p) (a :: k)) with (fs p !! (a :: k)).
  destruct (fs p !! (a :: k)) as [n|] eqn:E.
  - destruct (nkind n); split; reflexivity.
  - split; [reflexivity|]. cbn [snd fs set_fs]. apply insert_subseteq, E.
Qed.


Lemma OpenFile_append_inr (path : string) (p p' : Proc) (k : File) :
  OpenFile_append path p = (inr k, p') ->
  exists n c, Stat path p' = inr n /\ nkind n = KFile c.
Proof.
  unfold OpenFile_append.
  destruct (resolve p true path) as [e|k0] eqn:Hres; [discriminate|].
  destruct k0 as [|a k0]; [discriminate|].
  change (lookup_node (fs p) (a :: k0)) with (fs p !! (a :: k0)).
  destruct (fs p !! (a :: k0)) as [n|] eqn:E.
  - destruct (nkind n) as [|c|t] eqn:Hk; try discriminate. intros [= <- <-].
    exists n, c. split; [|exact Hk]. exact (Stat_resolved path p _ n Hres E).
  - intros [= <- <-].
    exists (mkNode (KFile "") (N.ldiff 438 (umask p)) (euid p) (egid p)), ""%string.
    split; [|reflexivity].
    apply (Stat_insert_file path p
             (set_fs p (<[a :: k0 := mkNode (KFile "") (N.ldiff 438 (umask p))
                                      (euid p) (egid p)]> (fs p)))
             (a :: k0) _ ltac:(discriminate) eq_refl eq_refl);
      [left; exact E|cbn [nkind]; eauto|exact Hres].
Qed.

(** X14: setting up the log file destroys nothing: every node that was
    there is there unchanged, whether the call succeeds or not; when it
    succeeds its path leads to a regular file. *)
Lemma SetLogFile_keeps_every_node (env : Env) (appName logDir : string) (p : Proc) :
  fs p ⊆ fs (snd (logger.SetLogFile env appName logDir p)) /\
  (fst (logger.SetLogFile env appName logDir p) = None ->
   exists c,
     file_content
       (if negb (String.eqb logDir "")
        then Join logDir (appName +:+ "_" +:+ time_Now env +:+ ".log")
        else appName +:+ "_" +:+ time_Now env +:+ ".log")
       (snd (logger.SetLogFile env appName logDir p)) = Some c).
Proof.
  unfold logger.SetLogFile.
  set (fileName := appName +:+ "_" +:+ time_Now env +:+ ".log").
  destruct (negb (String.eqb logDir "")).
  - destruct (MkdirAll logDir 493 p) as [[e|] p1] eqn:E;
      destruct (MkdirAll_adds _ _ _ _ _ E) as (m' & -> & [Hsub _]).
    + split; [exact Hsub|discriminate].
    + destruct (OpenFile_append_adds (Join logDir fileName) (set_fs p m')) as [_ Hs].
      destruct (OpenFile_append (Join logDir fileName) (set_fs p m'))
        as [[e|k] p2] eqn:E2.
      * split; [|discriminate]. etrans; [exact Hsub|exact Hs].
      * split; [etrans; [exact Hsub|exact Hs]|]. intros _.
        destruct (OpenFile_append_inr _ _ _ _ E2) as (n & c & HS & Hk).
        exists c. unfold file_content. cbn [snd]. rewrite HS, Hk. reflexivity.
  - destruct (OpenFile_append_adds fileName p) as [_ Hs].
    destruct (OpenFile_append fileName p) as [[e|k] p2] eqn:E2.
    + split; [exact Hs|discriminate].
    + split; [exact Hs|]. intros _.
      destruct (OpenFile_append_inr _ _ _ _ E2) as (n & c & HS & Hk).
      exists c. unfold file_content. cbn [snd]. rewrite HS, Hk. reflexivity.
Qed.

(** X15: the [-app] flag names the log file and nothing else: without a log
    directory the run is the same whatever the flag holds; the bundle is
    named by the description file. *)
Lemma app_flag_names_the_log_only (flags : Flags) (env : Env) (p : Proc)
  (name : string) :
  logDirFlag flags = ""%string ->
  main (set_applicationNameFlag flags name) env p = main flags env p.
Proof.
  intros Hlog. destruct flags as [a f c sg d nt ap si lg].
  cbn [logDirFlag] in Hlog. subst lg.
  unfold main, main_setup, set_applicationNameFlag.
  cbn [applicationNameFlag packageFileFlag cleanFlag signFlag deleteFlag
       notariseFlag appleIDProfileFlag silentFlag logDirFlag].
  reflexivity.
Qed.

Lemma app_flag_names_the_log_only_witness :
  main (set_applicationNameFlag no_flags "Other") (env_of sample) (proc_of sources)
  = main no_flags (env_of sample) (proc_of sources).
Proof.
  apply (app_flag_names_the_log_only no_flags (env_of sample) (proc_of sources) "Other").
  reflexivity.
Defined.


Lemma sys_variables {A : Type} (f : Proc -> A * Proc) (s : State) :
  variables (snd (sys f s)) = variables s.
Proof. unfold sys. destruct (f (proc s)). reflexivity. Qed.

Ltac sys_step :=
  match goal with
  | |- context [sys ?f ?s] =>
      let E := fresh "E" in
      let p := fresh "p" in
      destruct (sys f s) as [? ?] eqn:E; apply sys_inv in E;
      destruct E as (p & _ & ->)
  end.

Ltac case_step :=
  match goal with
  | |- context [match ?x with _ => _ end] =>
      lazymatch x with
      | context [sys _ _] => fail
      | _ => destruct x
      end
  end.

Ltac variables_tac := repeat first [sys_step | case_step]; try reflexivity.

Lemma DeleteAll_variables (s : State) : variables (snd (DeleteAll s)) = variables s.
Proof. apply sys_variables. Qed.

Lemma cleanAfterError_variables (err : error) (s : State) :
  variables (snd (cleanAfterError err s)) = variables s.
Proof.
  unfold cleanAfterError. destruct (negb _); [|reflexivity]. apply DeleteAll_variables.
Qed.

Lemma CreatePkgInfo_variables (s : State) :
  variables (snd (CreatePkgInfo s)) = variables s.
Proof.
  unfold CreatePkgInfo.
  destruct (sys (Create (Join (contentsDir s) "PkgInfo")) s) as [[e|file] s1] eqn:E1;
    apply sys_inv in E1; destruct E1 as (p1 & _ & ->).
  - rewrite cleanAfterError_variables. reflexivity.
  - rewrite sys_variables. reflexivity.
Qed.

Lemma CreatePlist_variables (s : State) :
  variables (snd (CreatePlist s)) = variables s.
Proof.
  unfold CreatePlist, and_then.
  generalize (render_plistTemplate (plistStructure_of s)). intros text.
  generalize (Join (contentsDir s) "Info.plist"). intros path.
  pose proof (CreatePkgInfo_variables s) as H1.
  destruct (CreatePkgInfo s) as [[e|] s1]; cbn [snd] in H1; [exact H1|].
  rewrite <- H1.
  destruct (mandatory_missing (plistStructure_of s)); [reflexivity|].
  destruct (sys (Create path) s1) as [[e|file'] s2] eqn:E2;
    apply sys_inv in E2; destruct E2 as (p2 & _ & ->).
  - rewrite cleanAfterError_variables. reflexivity.
  - pose proof (sys_variables (WriteString file' text) (set_proc s1 p2)) as H3.
    destruct (sys (WriteString file' text) (set_proc s1 p2)) as [[e|] s3];
      cbn [snd] in H3.
    + rewrite cleanAfterError_variables. exact H3.
    + exact H3.
Qed.

Lemma copyJarExec_variables (execPath execFile : string) (s : State) :
  variables (snd (copyJarExec execPath execFile s)) = variables s.
Proof.
  unfold copyJarExec, and_then, with_value.
  generalize (launcher_local_java execFile) (launcher_system_java execFile).
  intros t1 t2.
  destruct (GetUseLocalJava s); variables_tac.
Qed.

Lemma copyCompExec_variables (execPath execFile : string) (s : State) :
  variables (snd (copyCompExec execPath execFile s)) = variables s.
Proof. unfold copyCompExec, and_then. variables_tac. Qed.

Lemma CopyExecutable_variables (s : State) :
  variables (snd (CopyExecutable s)) = variables s.
Proof.
  unfold CopyExecutable.
  destruct (HasSuffix (GetExecutableName s) "jar").
  - pose proof (copyJarExec_variables
                  (if negb (String.eqb (GetLocalExecDirectory s) "")
                   then GetLocalExecDirectory s else GetExecutableDirectory s)
                  (GetExecutableName s) s) as H.
    destruct (copyJarExec _ _ s) as [e s1]. exact H.
  - pose proof (copyCompExec_variables
                  (if negb (String.eqb (GetLocalExecDirectory s) "")
                   then GetLocalExecDirectory s else GetExecutableDirectory s)
                  (GetExecutableName s) s) as H.
    destruct (copyCompExec _ _ s) as [e s1]. exact H.
Qed.

Lemma CopyIcon_variables (s : State) :
  variables (snd (CopyIcon s)) = variables s.
Proof.
  unfold CopyIcon, and_then, with_value, ask.
  destruct (String.eqb (GetIconFileName s) ""); [reflexivity|].
  destruct (Open _ (proc s)); [reflexivity|].
  variables_tac.
  all: cbn [proc set_proc]; destruct (File_Stat _ _); [reflexivity|];
    variables_tac.
Qed.


Lemma stage_Ret (step : State -> option error * State)
  (k : State -> ret unit * State) (s s' : State) :
  stage step k s = (Ret tt, s') ->
  exists s1, step s = (None, s1) /\ k s1 = (Ret tt, s').
Proof.
  unfold stage. destruct (step s) as [[e|] s1]; [discriminate|].
  simpl. eauto.
Qed.

Lemma getDefaultSigningIdentity_variables (env : Env) (s : State) :
  variables (snd (getDefaultSigningIdentity env s)) = variables s.
Proof.
  unfold getDefaultSigningIdentity.
  destruct (FindProgramPath env "security"); [reflexivity|].
  sys_step. repeat case_step; reflexivity.
Qed.

Lemma VerifyApplicationSignature_variables (env : Env) (appPath : string) (s : State) :
  variables (snd (VerifyApplicationSignature env appPath s)) = variables s.
Proof.
  unfold VerifyApplicationSignature.
  destruct (FindProgramPath env "codesign"); [reflexivity|].
  sys_step. repeat case_step; reflexivity.
Qed.

Lemma SignApplication_variables (env : Env) (s : State) :
  variables (snd (SignApplication env s)) = variables s.
Proof.
  unfold SignApplication.
  destruct (FindProgramPath env "codesign"); [reflexivity|].
  pose proof (getDefaultSigningIdentity_variables env s) as H.
  destruct (getDefaultSigningIdentity env s) as [[st|[e|ident]] s1];
    cbn [snd] in H; try exact H.
  rewrite <- H. sys_step. cbn [applicationDirectory set_proc].
  destruct (cmd_err _); [reflexivity|].
  rewrite VerifyApplicationSignature_variables. reflexivity.
Qed.

Lemma NotarizeApplication_variables (env : Env) (root profile : string) (s : State) :
  variables (snd (NotarizeApplication env root profile s)) = variables s.
Proof.
  unfold NotarizeApplication.
  destruct (FindProgramPath env "zip"); [reflexivity|].
  sys_step. destruct (cmd_err _); [reflexivity|].
  destruct (FindProgramPath env "xcrun"); [reflexivity|].
  sys_step. destruct (cmd_err _); reflexivity.
Qed.

Lemma main_sign_Ret (flags : Flags) (env : Env) (k : State -> ret unit * State)
  (s s' : State) :
  main_sign flags env k s = (Ret tt, s') ->
  exists s1, variables s1 = variables s /\ k s1 = (Ret tt, s').
Proof.
  unfold main_sign. destruct (signFlag flags); [|eauto].
  pose proof (SignApplication_variables env s) as H.
  destruct (SignApplication env s) as [[st|[e|]] s1]; cbn [snd] in H; simpl;
    try discriminate.
  eauto.
Qed.

Lemma main_notarize_Ret (flags : Flags) (env : Env) (k : State -> ret unit * State)
  (s s' : State) :
  main_notarize flags env k s = (Ret tt, s') ->
  exists s1, variables s1 = variables s /\ k s1 = (Ret tt, s').
Proof.
  unfold main_notarize. destruct (notariseFlag flags); [|eauto].
  destruct (String.eqb (appleIDProfileFlag flags) ""); [discriminate|].
  simpl.
  pose proof (NotarizeApplication_variables env (GetBundleName s)
                (appleIDProfileFlag flags) s) as H.
  destruct (NotarizeApplication env _ _ s) as [[st|[e|]] s1]; cbn [snd] in H; simpl;
    try discriminate.
  eauto.
Qed.

Lemma CreateDirectoryStructure_root (name : string) (s s1 : State) :
  CreateDirectoryStructure name s = (None, s1) ->
  packageInfo s1 = packageInfo s /\ applicationDirectory s1 = name +:+ ".app".
Proof.
  unfold CreateDirectoryStructure.
  destruct (negb (String.eqb name "")); [|discriminate].
  unfold and_then.
  repeat match goal with
  | |- context [createDir_or_DeleteAll ?path ?s0] =>
      let E := fresh "E" in
      let m := fresh "m" in
      destruct (createDir_or_DeleteAll path s0) as [[?|] ?] eqn:E; [discriminate|];
      apply createDir_or_DeleteAll_adds in E; destruct E as (m & -> & _)
  end.
  intros [= <-]. split; reflexivity.
Qed.

Lemma variables_eq (s s' : State) :
  variables s' = variables s ->
  packageInfo s' = packageInfo s /\ applicationDirectory s' = applicationDirectory s.
Proof. unfold variables. intros [= -> -> _ _ _ _ _]. split; reflexivity. Qed.

Lemma step_variables (step : State -> option error * State) (s s1 : State)
  (e : option error) :
  variables (snd (step s)) = variables s -> step s = (e, s1) ->
  variables s1 = variables s.
Proof. intros H E. rewrite E in H. exact H. Qed.

(** X16: a run with [-delete] that ends normally leaves no bundle: nothing
    is at the bundle root or below, when the name of the description file
    has no separator. *)
Lemma delete_flag_leaves_no_bundle (flags : Flags) (env : Env) (p : Proc)
  (s' : State) :
  deleteFlag flags = true ->
  main flags env p = (Ret tt, s') ->
  plain (GetBundleName s') = true ->
  map_Forall (fun i _ => ¬ root_key (proc s') (GetBundleName s') `prefix_of` i)
    (fs (proc s')).
Proof.
  intros Hdel Hmain Hplain.
  unfold main, exit_or in Hmain.
  destruct (main_setup flags env (initial_State p)) as [[st|[]] s0];
    [discriminate|].
  unfold main_build in Hmain.
  set (s0' := if cleanFlag flags then snd (DeleteAll s0) else s0) in Hmain.
  apply stage_Ret in Hmain. destruct Hmain as (s1 & E1 & Hmain).
  apply stage_Ret in Hmain. destruct Hmain as (s2 & E2 & Hmain).
  apply stage_Ret in Hmain. destruct Hmain as (s3 & E3 & Hmain).
  apply stage_Ret in Hmain. destruct Hmain as (s4 & E4 & Hmain).
  apply main_sign_Ret in Hmain. destruct Hmain as (s5 & V5 & Hmain).
  apply main_notarize_Ret in Hmain. destruct Hmain as (s6 & V6 & Hmain).
  unfold main_delete in Hmain. rewrite Hdel in Hmain.
  apply stage_Ret in Hmain. destruct Hmain as (s7 & E7 & Hmain).
  injection Hmain as <-.
  apply CreateDirectoryStructure_root in E1. destruct E1 as [P1 A1].
  pose proof (step_variables _ _ _ _ (CreatePlist_variables s1) E2) as V2.
  pose proof (step_variables _ _ _ _ (CopyExecutable_variables s2) E3) as V3.
  pose proof (step_variables _ _ _ _ (CopyIcon_variables s3) E4) as V4.
  pose proof (step_variables _ _ _ _ (DeleteAll_variables s6) E7) as V7.
  assert (V : variables s6 = variables s1) by congruence.
  apply variables_eq in V. destruct V as [P6 A6].
  apply variables_eq in V7. destruct V7 as [P7 A7].
  assert (Hname : GetBundleName s7 = GetBundleName s0').
  { unfold GetBundleName. congruence. }
  assert (Hroot : applicationDirectory s6 = GetBundleName s7 +:+ ".app") by congruence.
  pose proof (is_name_app _ Hplain) as Hr. rewrite <- Hroot in Hr.
  destruct (DeleteAll_leaves_nothing s6 Hr) as [Hcwd Hnone].
  rewrite E7 in Hcwd, Hnone. cbn [snd] in Hcwd, Hnone.
  intros i n Hl Hi. unfold root_key in Hi.
  rewrite Hcwd, <- Hroot in Hi. rewrite (Hnone i Hi) in Hl. discriminate.
Qed.

Lemma delete_flag_leaves_no_bundle_witness :
  map_Forall
    (fun i _ =>
       ¬ root_key
           (proc (snd (main (set_deleteFlag no_flags true) (env_of sample)
                         (proc_of sources))))
           (GetBundleName (snd (main (set_deleteFlag no_flags true) (env_of sample)
                                  (proc_of sources))))
         `prefix_of` i)
    (fs (proc (snd (main (set_deleteFlag no_flags true) (env_of sample)
                      (proc_of sources))))).
Proof.
  apply (delete_flag_leaves_no_bundle (set_deleteFlag no_flags true) (env_of sample)
           (proc_of sources)
           (snd (main (set_deleteFlag no_flags true) (env_of sample) (proc_of sources)))).
  - reflexivity.
  - vm_compute. reflexivity.
  - vm_compute. reflexivity.
Defined.


Lemma root_from_descriptor_variables (s s' : State) :
  variables s' = variables s -> root_from_descriptor s -> root_from_descriptor s'.
Proof.
  intros V. apply variables_eq in V. destruct V as [P A].
  unfold root_from_descriptor, GetBundleName. rewrite P, A. trivial.
Qed.

Lemma createDir_or_DeleteAll_variables (path : State -> string) (s : State) :
  variables (snd (createDir_or_DeleteAll path s)) = variables s.
Proof.
  unfold createDir_or_DeleteAll, createDir.
  pose proof (sys_variables (MkdirAll (path s) 493) s) as H.
  destruct (sys (MkdirAll (path s) 493) s) as [[e|] s1]; cbn [snd] in H |- *;
    [|exact H].
  rewrite DeleteAll_variables. exact H.
Qed.

Lemma and_then_variables (r : option error * State)
  (k : State -> option error * State) (s : State) :
  variables (snd r) = variables s ->
  (forall s1, variables (snd (k s1)) = variables s1) ->
  variables (snd (and_then r k)) = variables s.
Proof.
  intros Hr Hk. destruct r as [[e|] s1]; cbn [snd and_then] in *; [exact Hr|].
  rewrite Hk. exact Hr.
Qed.

(** After [CreateDirectoryStructure] with the name of the description
    file the root is that name followed by [.app], or the variables are as
    before when the name is empty. *)
Lemma CreateDirectoryStructure_named (s : State) :
  root_from_descriptor s ->
  root_from_descriptor (snd (CreateDirectoryStructure (GetBundleName s) s)).
Proof.
  intros HP. unfold CreateDirectoryStructure.
  destruct (negb (String.eqb (GetBundleName s) "")); [|exact HP].
  cbv zeta.
  match goal with |- root_from_descriptor (snd (and_then (createDir_or_DeleteAll _ ?s0) _)) =>
    apply (root_from_descriptor_variables s0); [|right; reflexivity] end.
  repeat (apply and_then_variables;
          [apply createDir_or_DeleteAll_variables|intros ?]).
  reflexivity.
Qed.

Lemma stage_root (step : State -> option error * State)
  (k : State -> ret unit * State) (s : State) :
  root_from_descriptor (snd (step s)) ->
  (forall s1, root_from_descriptor s1 -> root_from_descriptor (snd (k s1))) ->
  root_from_descriptor (snd (stage step k s)).
Proof.
  intros Hs Hk. unfold stage. destruct (step s) as [[e|] s1]; cbn [snd] in Hs; simpl.
  - exact Hs.
  - apply Hk, Hs.
Qed.

Lemma stage_variables_root (step : State -> option error * State)
  (k : State -> ret unit * State) (s : State) :
  (forall s0, variables (snd (step s0)) = variables s0) ->
  (forall s1, root_from_descriptor s1 -> root_from_descriptor (snd (k s1))) ->
  root_from_descriptor s ->
  root_from_descriptor (snd (stage step k s)).
Proof.
  intros Hv Hk HP. apply stage_root; [|exact Hk].
  exact (root_from_descriptor_variables s _ (Hv s) HP).
Qed.

Lemma main_sign_root (flags : Flags) (env : Env) (k : State -> ret unit * State)
  (s : State) :
  (forall s1, root_from_descriptor s1 -> root_from_descriptor (snd (k s1))) ->
  root_from_descriptor s ->
  root_from_descriptor (snd (main_sign flags env k s)).
Proof.
  intros Hk HP. unfold main_sign. destruct (signFlag flags); [|apply Hk, HP].
  pose proof (SignApplication_variables env s) as H.
  destruct (SignApplication env s) as [[st|[e|]] s1]; cbn [snd] in H; simpl;
    try exact (root_from_descriptor_variables s s1 H HP).
  apply Hk. exact (root_from_descriptor_variables s s1 H HP).
Qed.

Lemma main_notarize_root (flags : Flags) (env : Env) (k : State -> ret unit * State)
  (s : State) :
  (forall s1, root_from_descriptor s1 -> root_from_descriptor (snd (k s1))) ->
  root_from_descriptor s ->
  root_from_descriptor (snd (main_notarize flags env k s)).
Proof.
  intros Hk HP. unfold main_notarize. destruct (notariseFlag flags); [|apply Hk, HP].
  destruct (String.eqb (appleIDProfileFlag flags) ""); [exact HP|].
  simpl.
  pose proof (NotarizeApplication_variables env (GetBundleName s)
                (appleIDProfileFlag flags) s) as H.
  destruct (NotarizeApplication env _ _ s) as [[st|[e|]] s1]; cbn [snd] in H; simpl;
    try exact (root_from_descriptor_variables s s1 H HP).
  apply Hk. exact (root_from_descriptor_variables s s1 H HP).
Qed.

Lemma main_delete_root (flags : Flags) (s : State) :
  root_from_descriptor s -> root_from_descriptor (snd (main_delete flags s)).
Proof.
  intros HP. unfold main_delete. destruct (deleteFlag flags); [|exact HP].
  apply stage_variables_root; [apply DeleteAll_variables|trivial|exact HP].
Qed.

(** X17: whatever the flags, and however the run ends, the bundle root is
    either not set or the name of the description file followed by
    [.app]: the [-app] flag never names the bundle. *)
Lemma bundle_is_named_by_the_description (flags : Flags) (env : Env) (p : Proc) :
  root_from_descriptor (snd (main flags env p)).
Proof.
  unfold main, exit_or.
  pose proof (main_setup_keeps_variables flags env (initial_State p)) as Hset.
  destruct (main_setup flags env (initial_State p)) as [r s0].
  specialize (Hset s0 r eq_refl). cbn [applicationDirectory initial_State] in Hset.
  assert (HP0 : root_from_descriptor s0) by (left; exact Hset).
  destruct r as [st|[]]; [exact HP0|].
  unfold main_build.
  assert (HP1 : root_from_descriptor
                  (if cleanFlag flags then snd (DeleteAll s0) else s0)).
  { destruct (cleanFlag flags); [|exact HP0].
    exact (root_from_descriptor_variables s0 _ (DeleteAll_variables s0) HP0). }
  apply stage_root; [apply CreateDirectoryStructure_named, HP1|].
  intros s1 H1. apply stage_variables_root; [apply CreatePlist_variables| |exact H1].
  intros s2 H2. apply stage_variables_root; [apply CopyExecutable_variables| |exact H2].
  intros s3 H3. apply stage_variables_root; [apply CopyIcon_variables| |exact H3].
  intros s4 H4. apply main_sign_root; [|exact H4].
  intros s5 H5. apply main_notarize_root; [|exact H5].
  intros s6 H6. apply main_delete_root, H6.
Qed.

End RunFacts.
